(** * fetch_yfinance.py: daily price bars for one Indonesian ticker

    A shallow embedding of [backend/src/scripts/fetch_yfinance.py] and of the
    pieces of the Python runtime the script calls: exceptions, [str]
    formatting, [datetime.strptime] / [strftime] / [timedelta] for the
    format [%Y-%m-%d], [float()] and [int()] on table cells, and
    [json.dumps].  The market-data provider ([yf.Ticker(...).history(...)])
    is an opaque collaborator: the script is a program that issues one
    provider request and continues with whatever the provider answers.

    Python [str] values are Rocq strings; each character stands for the code
    point of the same number (U+0000 to U+00FF). *)

From Stdlib Require Import ZArith String Ascii List Lia Bool.
From Stdlib Require Import DecimalString.
From Stdlib Require Import PrimFloat SpecFloat FloatOps.
From stdpp Require Import gmap strings.

Open Scope string_scope.
Open Scope Z_scope.

(* ===================================================================== *)
(** * Python runtime *)
(* ===================================================================== *)

Module Py.

(** ** Characters and decimal digits *)

Definition code (c : ascii) : Z := Z.of_N (N_of_ascii c).

Definition chr (n : Z) : ascii := ascii_of_N (Z.to_N n).

Definition in_range (lo hi : ascii) (c : ascii) : bool :=
  (code lo <=? code c) && (code c <=? code hi).

Definition is_digit (c : ascii) : bool := in_range "0" "9" c.

Definition digit_val (c : ascii) : Z := code c - 48.

Definition digit_chr (n : Z) : ascii := chr (48 + n).

(** [hex_chr n] is the lower-case hexadecimal digit of [0 <= n < 16]. *)
Definition hex_chr (n : Z) : ascii :=
  if n <? 10 then chr (48 + n) else chr (87 + n).

(** ["%02d"] and ["%04d"] of a non-negative number. *)
Definition pad2 (n : Z) : string :=
  String (digit_chr (n / 10 mod 10)) (String (digit_chr (n mod 10)) EmptyString).

Definition pad4 (n : Z) : string :=
  String (digit_chr (n / 1000 mod 10))
    (String (digit_chr (n / 100 mod 10)) (pad2 n)).

(** [str(n)] of an integer. *)
Definition str_of_int (n : Z) : string := NilZero.string_of_int (Z.to_int n).

Definition dquote : ascii := chr 34.
Definition squote : ascii := chr 39.
Definition backslash : ascii := chr 92.

Fixpoint contains (c : ascii) (s : string) : bool :=
  match s with
  | EmptyString => false
  | String a r => Ascii.eqb a c || contains c r
  end.

(** ** [repr] of a [str]: the quoting used by [%r] in messages *)

Definition printable (c : ascii) : bool :=
  let n := code c in
  ((32 <=? n) && (n <? 127)) || ((161 <=? n) && negb (n =? 173)).

Definition repr_char (quote : ascii) (c : ascii) : string :=
  if Ascii.eqb c quote || Ascii.eqb c backslash
  then String backslash (String c EmptyString)
  else if Ascii.eqb c "009" then "\t"
  else if Ascii.eqb c "010" then "\n"
  else if Ascii.eqb c "013" then "\r"
  else if printable c then String c EmptyString
  else String backslash (String "x"
         (String (hex_chr (code c / 16))
            (String (hex_chr (code c mod 16)) EmptyString))).

Fixpoint repr_body (quote : ascii) (s : string) : string :=
  match s with
  | EmptyString => EmptyString
  | String c r => repr_char quote c +:+ repr_body quote r
  end.

Definition repr (s : string) : string :=
  let quote : ascii :=
    if contains squote s && negb (contains dquote s) then dquote else squote in
  String quote (repr_body quote s +:+ String quote EmptyString).

(** ** Exceptions

    [exc_str e] is [str(e)].  [exc_is_Exception e] is
    [isinstance(e, Exception)]: it holds of the ordinary errors and fails
    for the classes that derive from [BaseException] only
    ([KeyboardInterrupt], [SystemExit], [GeneratorExit]), which an
    [except Exception] clause lets through.  [exc_status e] is the status
    with which the interpreter ends when such an exception is left uncaught
    (the code of a [SystemExit]). *)

Record PyExc := mkBaseExc {
  exc_class : string;
  exc_str : string;
  exc_is_Exception : bool;
  exc_status : Z
}.

(** An instance of a subclass of [Exception]. *)
Definition mkExc (cls msg : string) : PyExc := mkBaseExc cls msg true 1.

(** [SystemExit(code)], as [sys.exit(code)] raises it, for a status
    [0 <= code < 256]. *)
Definition SystemExit (code : Z) : PyExc :=
  mkBaseExc "SystemExit" (str_of_int code) false code.

(** The exit status of an interpreter ended by the uncaught exception [e]:
    1, after the traceback, for an instance of [Exception]. *)
Definition uncaught_status (e : PyExc) : Z :=
  if exc_is_Exception e then 1 else exc_status e.

Definition ValueError (msg : string) : PyExc := mkExc "ValueError" msg.
Definition OverflowError (msg : string) : PyExc := mkExc "OverflowError" msg.
Definition TypeError (msg : string) : PyExc := mkExc "TypeError" msg.
Definition AttributeError (msg : string) : PyExc := mkExc "AttributeError" msg.
Definition KeyError (key : string) : PyExc := mkExc "KeyError" (repr key).

(** The result of evaluating a Python expression or block: a value, or a
    raised exception that unwinds to the nearest handler. *)
Inductive outcome (A : Type) : Type :=
| Return (a : A)
| Raise (e : PyExc).
Arguments Return {A} a.
Arguments Raise {A} e.

Definition bind {A B} (x : outcome A) (f : A -> outcome B) : outcome B :=
  match x with
  | Return a => f a
  | Raise e => Raise e
  end.

Definition raised {A} (x : outcome A) : bool :=
  match x with Return _ => false | Raise _ => true end.

End Py.

Export Py.

Declare Scope py_scope.
Delimit Scope py_scope with py.
Notation "x <- e ;; k" := (Py.bind e (fun x => k))
  (at level 100, e at next level, right associativity) : py_scope.

Open Scope py_scope.

(* ===================================================================== *)
(** * [datetime]: calendar dates, [strptime], [strftime], [timedelta] *)
(* ===================================================================== *)

Module Datetime.

(** The date part of a [datetime] (the script never looks at the time of
    day, which [strptime] sets to midnight and [timedelta(days=1)] keeps). *)
Record datetime := mkDate { year : Z; month : Z; day : Z }.

Definition MINYEAR : Z := 1.
Definition MAXYEAR : Z := 9999.

Definition is_leap (y : Z) : bool :=
  (y mod 4 =? 0) && (negb (y mod 100 =? 0) || (y mod 400 =? 0)).

Definition days_in_month (y m : Z) : Z :=
  if m =? 2 then (if is_leap y then 29 else 28)
  else if (m =? 4) || (m =? 6) || (m =? 9) || (m =? 11) then 30
  else 31.

(** The dates a [datetime] object can hold. *)
Definition valid_date (d : datetime) : bool :=
  (MINYEAR <=? year d) && (year d <=? MAXYEAR) &&
  (1 <=? month d) && (month d <=? 12) &&
  (1 <=? day d) && (day d <=? days_in_month (year d) (month d)).

(** Proleptic Gregorian ordinal: 0001-01-01 is day 1 ([date.toordinal]). *)
Definition days_before_year (y : Z) : Z :=
  let p := y - 1 in p * 365 + p / 4 - p / 100 + p / 400.

Definition days_before_month (y m : Z) : Z :=
  nth (Z.to_nat m) [0; 0; 31; 59; 90; 120; 151; 181; 212; 243; 273; 304; 334] 0
  + (if (2 <? m) && is_leap y then 1 else 0).

Definition toordinal (d : datetime) : Z :=
  days_before_year (year d) + days_before_month (year d) (month d) + day d.

(** [datetime.max], as a date. *)
Definition max_date : datetime := mkDate MAXYEAR 12 31.

(** The calendar day after [d]. *)
Definition next_day (d : datetime) : datetime :=
  if day d <? days_in_month (year d) (month d)
  then mkDate (year d) (month d) (day d + 1)
  else if month d <? 12 then mkDate (year d) (month d + 1) 1
  else mkDate (year d + 1) 1 1.

(** [dt + timedelta(days=1)]: the day field is incremented and the date
    normalised; a year past [MAXYEAR] is an [OverflowError]. *)
Definition add_one_day (d : datetime) : outcome datetime :=
  let r := next_day d in
  if year r <=? MAXYEAR then Return r
  else Raise (OverflowError "date value out of range").

(** [dt.strftime('%Y-%m-%d')], as the C library formats it: the year as a
    decimal number without padding (so three digits for the year 999), month
    and day zero-padded to two digits. *)
Definition strftime (d : datetime) : string :=
  str_of_int (year d) +:+ "-" +:+ pad2 (month d) +:+ "-" +:+ pad2 (day d).

(** [strptime] compiles [%Y-%m-%d] to the regular expression
    [(\d\d\d\d)-(1[0-2]|0[1-9]|[1-9])-(3[0-1]|[1-2]\d|0[1-9]|[1-9]| [1-9])]
    and matches it against a prefix of the text.  Each group lists its
    alternatives in the order the backtracking matcher tries them, with the
    text left after the alternative. *)
Definition month_alts (s : string) : list (Z * string) :=
  match s with
  | EmptyString => []
  | String a r =>
      match r with
      | EmptyString => []
      | String b r' =>
          (if Ascii.eqb a "1" && in_range "0" "2" b
           then [(10 + digit_val b, r')] else []) ++
          (if Ascii.eqb a "0" && in_range "1" "9" b
           then [(digit_val b, r')] else [])
      end ++
      (if in_range "1" "9" a then [(digit_val a, r)] else [])
  end.

Definition day_alts (s : string) : list (Z * string) :=
  match s with
  | EmptyString => []
  | String a r =>
      match r with
      | EmptyString => []
      | String b r' =>
          (if Ascii.eqb a "3" && in_range "0" "1" b
           then [(30 + digit_val b, r')] else []) ++
          (if in_range "1" "2" a && is_digit b
           then [(10 * digit_val a + digit_val b, r')] else []) ++
          (if Ascii.eqb a "0" && in_range "1" "9" b
           then [(digit_val b, r')] else [])
      end ++
      (if in_range "1" "9" a then [(digit_val a, r)] else []) ++
      match r with
      | EmptyString => []
      | String b r' =>
          if Ascii.eqb a " " && in_range "1" "9" b
          then [(digit_val b, r')] else []
      end
  end.

(** The text after a literal ["-"], if the text starts with one. *)
Definition after_dash (s : string) : option string :=
  match s with
  | String c r => if Ascii.eqb c "-" then Some r else None
  | EmptyString => None
  end.

(** The first alternative, in order, for which the rest of the pattern
    matches. *)
Fixpoint first_match {A B} (f : A -> option B) (l : list A) : option B :=
  match l with
  | [] => None
  | x :: r => match f x with Some y => Some y | None => first_match f r end
  end.

(** [format_regex.match(data_string)]: year, month, day and the text after
    the match. *)
Definition match_ymd (s : string) : option (Z * Z * Z * string) :=
  match s with
  | String y1 (String y2 (String y3 (String y4 r))) =>
      if is_digit y1 && is_digit y2 && is_digit y3 && is_digit y4 then
        let y := 1000 * digit_val y1 + 100 * digit_val y2
                 + 10 * digit_val y3 + digit_val y4 in
        match after_dash r with
        | None => None
        | Some r1 =>
            first_match
              (fun mr : Z * string =>
                 match after_dash (snd mr) with
                 | None => None
                 | Some r2 =>
                     match day_alts r2 with
                     | [] => None
                     | dr :: _ => Some (y, fst mr, fst dr, snd dr)
                     end
                 end)
              (month_alts r1)
        end
      else None
  | _ => None
  end.

Definition is_empty (s : string) : bool :=
  match s with EmptyString => true | String _ _ => false end.

(** [datetime.strptime(s, '%Y-%m-%d')] (messages as in CPython 3.12). *)
Definition strptime (s : string) : outcome datetime :=
  match match_ymd s with
  | None =>
      Raise (ValueError ("time data " +:+ repr s +:+ " does not match format "
                         +:+ repr "%Y-%m-%d"))
  | Some (y, m, d, rest) =>
      if negb (is_empty rest)
      then Raise (ValueError ("unconverted data remains: " +:+ rest))
      else if y <? MINYEAR
      then Raise (ValueError ("year " +:+ str_of_int y +:+ " is out of range"))
      else if days_in_month y m <? d
      then Raise (ValueError "day is out of range for month")
      else Return (mkDate y m d)
  end.

End Datetime.

Export Datetime.

(* ===================================================================== *)
(** * Table cells and the casts [float()] and [int()] *)
(* ===================================================================== *)

Module Cells.

(** The objects a row of the provider's table holds: a [Timestamp] (we keep
    its calendar date), a Python [float] (IEEE-754 binary64), or an [int]. *)
Inductive pyval : Type :=
| PyTimestamp (d : datetime)
| PyFloat (f : float)
| PyInt (n : Z).

Definition type_name (v : pyval) : string :=
  match v with
  | PyTimestamp _ => "Timestamp"
  | PyFloat _ => "float"
  | PyInt _ => "int"
  end.

(** [float(v)]: a float is returned as it is; an int is rounded to the
    nearest binary64 (ties to even) and is an [OverflowError] beyond the
    largest finite float. *)
Definition py_float (v : pyval) : outcome float :=
  match v with
  | PyFloat f => Return f
  | PyInt n =>
      match binary_normalize prec emax n 0 false with
      | S754_infinity _ => Raise (OverflowError "int too large to convert to float")
      | sf => Return (SF2Prim sf)
      end
  | PyTimestamp _ =>
      Raise (TypeError ("float() argument must be a string or a real number, not "
                        +:+ repr (type_name v)))
  end.

(** [int(v)]: an int is returned as it is; a finite float is truncated
    towards zero; NaN and the infinities raise. *)
Definition py_int (v : pyval) : outcome Z :=
  match v with
  | PyInt n => Return n
  | PyFloat f =>
      match Prim2SF f with
      | S754_nan => Raise (ValueError "cannot convert float NaN to integer")
      | S754_infinity _ =>
          Raise (OverflowError "cannot convert float infinity to integer")
      | S754_zero _ => Return 0
      | S754_finite s m e =>
          let a := if 0 <=? e then Z.pos m * 2 ^ e else Z.pos m / 2 ^ (- e) in
          Return (if s then - a else a)
      end
  | PyTimestamp _ =>
      Raise (TypeError
               ("int() argument must be a string, a bytes-like object or a real number, not "
                +:+ repr (type_name v)))
  end.

(** [v.strftime('%Y-%m-%d')]: only a [Timestamp] has the method. *)
Definition py_strftime (v : pyval) : outcome string :=
  match v with
  | PyTimestamp d => Return (strftime d)
  | _ =>
      Raise (AttributeError (repr (type_name v)
                             +:+ " object has no attribute 'strftime'"))
  end.

(** A row of the table ([row] in [for _, row in df.iterrows()]): cells by
    column label. *)
Abbreviation Row := (gmap string pyval).

(** [row[label]]: the cell, or [KeyError(label)]. *)
Definition getitem (row : Row) (label : string) : outcome pyval :=
  match row !! label with
  | Some v => Return v
  | None => Raise (KeyError label)
  end.

End Cells.

Export Cells.

(* ===================================================================== *)
(** * [json.dumps] *)
(* ===================================================================== *)

Module Json.

(** The Python values the script serialises: [str], [float], [int], [list]
    and [dict] (keys in insertion order). *)
#[local] Set Warnings "-register-all".
Inductive json : Type :=
| JStr (s : string)
| JFloat (f : float)
| JInt (n : Z)
| JList (items : list json)
| JDict (members : list (string * json)).

(** [\uXXXX] for a code point below 256. *)
Definition u_escape (c : ascii) : string :=
  String backslash (String "u" (String "0" (String "0"
    (String (hex_chr (code c / 16)) (String (hex_chr (code c mod 16)) EmptyString))))).

(** One character of [py_encode_basestring_ascii]: the short escapes of
    [ESCAPE_DCT], the character itself from space to tilde, [\uXXXX]
    otherwise. *)
Definition escape_char (c : ascii) : string :=
  if Ascii.eqb c backslash then String backslash (String backslash EmptyString)
  else if Ascii.eqb c dquote then String backslash (String dquote EmptyString)
  else if Ascii.eqb c "008" then String backslash "b"
  else if Ascii.eqb c "012" then String backslash "f"
  else if Ascii.eqb c "010" then String backslash "n"
  else if Ascii.eqb c "013" then String backslash "r"
  else if Ascii.eqb c "009" then String backslash "t"
  else if in_range " " "~" c then String c EmptyString
  else u_escape c.

Fixpoint escape (s : string) : string :=
  match s with
  | EmptyString => EmptyString
  | String c r => escape_char c +:+ escape r
  end.

Definition encode_string (s : string) : string :=
  String dquote (escape s +:+ String dquote EmptyString).

(** [", ".join(parts)] *)
Fixpoint join (sep : string) (parts : list string) : string :=
  match parts with
  | [] => EmptyString
  | [x] => x
  | x :: r => x +:+ sep +:+ join sep r
  end.

Section Dumps.

(** [float.__repr__] on finite floats (the shortest decimal text that reads
    back as the same float) belongs to the interpreter; the serialiser is
    parametric in it. *)
Variable float_repr : float -> string.

Definition encode_float (f : float) : string :=
  if is_nan f then "NaN"
  else if PrimFloat.eqb f infinity then "Infinity"
  else if PrimFloat.eqb f neg_infinity then "-Infinity"
  else float_repr f.

(** [json.dumps(v)] with the default separators [", "] and [": "]. *)
Fixpoint dumps (v : json) : string :=
  match v with
  | JStr s => encode_string s
  | JFloat f => encode_float f
  | JInt n => str_of_int n
  | JList items =>
      "[" +:+ join ", " (map dumps items) +:+ "]"
  | JDict members =>
      "{" +:+ join ", " (map (fun kv => encode_string (fst kv) +:+ ": " +:+ dumps (snd kv))
                             members) +:+ "}"
  end.

End Dumps.

(** *** Reading a JSON string literal (RFC 8259, section 7)

    Used to state that a printed text is valid JSON. *)

Definition hex_val (c : ascii) : option Z :=
  if is_digit c then Some (code c - 48)
  else if in_range "a" "f" c then Some (code c - 87)
  else if in_range "A" "F" c then Some (code c - 55)
  else None.

Definition simple_escape (e : ascii) : option ascii :=
  if Ascii.eqb e dquote then Some dquote
  else if Ascii.eqb e backslash then Some backslash
  else if Ascii.eqb e "/" then Some "/"%char
  else if Ascii.eqb e "b" then Some "008"%char
  else if Ascii.eqb e "f" then Some "012"%char
  else if Ascii.eqb e "n" then Some "010"%char
  else if Ascii.eqb e "r" then Some "013"%char
  else if Ascii.eqb e "t" then Some "009"%char
  else None.

Definition hex4 (h1 h2 h3 h4 : ascii) : option Z :=
  match hex_val h1, hex_val h2, hex_val h3, hex_val h4 with
  | Some a, Some b, Some c, Some d => Some (4096 * a + 256 * b + 16 * c + d)
  | _, _, _, _ => None
  end.

Definition cons_char (c : ascii) (o : option string) : option string :=
  match o with Some s => Some (String c s) | None => None end.

(** The characters of a string literal after its opening quote, up to the
    closing quote, which must end the text. *)
Fixpoint read_chars (s : string) : option string :=
  match s with
  | EmptyString => None
  | String c r =>
      if Ascii.eqb c dquote then (if is_empty r then Some EmptyString else None)
      else if Ascii.eqb c backslash then
        match r with
        | EmptyString => None
        | String e r1 =>
            if Ascii.eqb e "u" then
              match r1 with
              | String h1 (String h2 (String h3 (String h4 r2))) =>
                  match hex4 h1 h2 h3 h4 with
                  | Some n => if n <? 256 then cons_char (chr n) (read_chars r2) else None
                  | None => None
                  end
              | _ => None
              end
            else
              match simple_escape e with
              | Some x => cons_char x (read_chars r1)
              | None => None
              end
        end
      else if code c <? 32 then None
      else cons_char c (read_chars r)
  end.

Definition read_string (s : string) : option string :=
  match s with
  | String c r => if Ascii.eqb c dquote then read_chars r else None
  | EmptyString => None
  end.

End Json.

Export Json.

(* ===================================================================== *)
(** * The market-data provider *)
(* ===================================================================== *)

Module Provider.

(** What [yf.Ticker(symbol).history(start=..., end=...)] is asked: daily bars
    of [q_symbol] over the half-open range from [q_start] to [q_end]. *)
Record Query := mkQuery { q_symbol : string; q_start : string; q_end : string }.

(** The table the provider answers with, given by the rows
    [df.iterrows()] yields after [df.reset_index()] has turned the index
    into one more column: every row has the same labels, the label of the
    former index (for daily history, [Date]) and the labels of the table's
    columns. *)
Abbreviation DataFrame := (list Row).

(** [df.empty], asked before [reset_index]: an axis of the table has length
    zero, that is, there is no row, or there is no column (the rows then
    carry the former index and nothing else). *)
Definition empty (df : DataFrame) : bool :=
  match df with
  | [] => true
  | row :: _ => (size row <=? 1)%nat
  end.

(** A program that may ask the provider: it either is done, or issues a
    query and continues with the provider's answer, a table or an
    exception. *)
Inductive prog (A : Type) : Type :=
| Ret (a : A)
| History (q : Query) (k : outcome DataFrame -> prog A).
Arguments Ret {A} a.
Arguments History {A} q k.

Fixpoint pbind {A B} (p : prog A) (f : A -> prog B) : prog B :=
  match p with
  | Ret a => f a
  | History q k => History q (fun answer => pbind (k answer) f)
  end.

(** Running a program against a provider. *)
Fixpoint run {A} (provider : Query -> outcome DataFrame) (p : prog A) : A :=
  match p with
  | Ret a => a
  | History q k => run provider (k (provider q))
  end.

(** The queries a program issues against a provider, in order. *)
Fixpoint queries {A} (provider : Query -> outcome DataFrame) (p : prog A)
  : list Query :=
  match p with
  | Ret _ => []
  | History q k => q :: queries provider (k (provider q))
  end.

End Provider.

Export Provider.

(* ===================================================================== *)
(** * The script *)
(* ===================================================================== *)

Module FetchYfinance.

(** One element of [results]: the dict literal built per row. *)
Record Bar := mkBar {
  date : string;
  open : float;
  high : float;
  low : float;
  close : float;
  volume : Z
}.

(** What [fetch_data] returns: the list [results], or the dict
    [{"error": ...}]. *)
Inductive Result : Type :=
| Bars (results : list Bar)
| ErrorDescriptor (error : string).

Definition bar_json (b : Bar) : json :=
  JDict [("date", JStr (date b)); ("open", JFloat (open b));
         ("high", JFloat (high b)); ("low", JFloat (low b));
         ("close", JFloat (close b)); ("volume", JInt (volume b))].

Definition result_json (r : Result) : json :=
  match r with
  | Bars results => JList (map bar_json results)
  | ErrorDescriptor error => JDict [("error", JStr error)]
  end.

(** [yf_ticker = f"{ticker}.JK"] *)
Definition yf_ticker (ticker : string) : string := ticker +:+ ".JK".

(** The [if] branch of the end-date adjustment (lines 14-15). *)
Definition same_day_branch (end_date : string) : outcome string :=
  dt <- strptime end_date ;;
  end_dt <- add_one_day dt ;;
  Return (strftime end_dt).

(** The [else] branch of the end-date adjustment (lines 18-19). *)
Definition range_branch (end_date : string) : outcome string :=
  dt <- strptime end_date ;;
  end_dt <- add_one_day dt ;;
  Return (strftime end_dt).

(** Lines 13-19: the new value of [end_date]. *)
Definition adjust_end_date (start_date end_date : string) : outcome string :=
  if String.eqb start_date end_date
  then same_day_branch end_date
  else range_branch end_date.

(** The dict literal of lines 34-41; its entries are evaluated in order. *)
Definition row_to_bar (row : Row) : outcome Bar :=
  c_date <- getitem row "Date" ;;
  v_date <- py_strftime c_date ;;
  c_open <- getitem row "Open" ;;
  v_open <- py_float c_open ;;
  c_high <- getitem row "High" ;;
  v_high <- py_float c_high ;;
  c_low <- getitem row "Low" ;;
  v_low <- py_float c_low ;;
  c_close <- getitem row "Close" ;;
  v_close <- py_float c_close ;;
  c_volume <- getitem row "Volume" ;;
  v_volume <- py_int c_volume ;;
  Return (mkBar v_date v_open v_high v_low v_close v_volume).

(** The loop of lines 33-41: [results] grows by one dict per row. *)
Fixpoint iterrows_loop (rows : DataFrame) (results : list Bar)
  : outcome (list Bar) :=
  match rows with
  | [] => Return results
  | row :: rest =>
      bar <- row_to_bar row ;;
      iterrows_loop rest (results ++ [bar])
  end.

(** The body of the [try] block after the provider has answered
    (lines 25-42). *)
Definition try_body (answer : outcome DataFrame) : outcome Result :=
  df <- answer ;;
  if empty df then Return (Bars [])
  else
    results <- iterrows_loop df [] ;;
    Return (Bars results).

(** [except Exception as e: return {"error": str(e)}]: an exception that
    is not an instance of [Exception] is not handled and goes on. *)
Definition except_Exception (body : outcome Result) : outcome Result :=
  match body with
  | Return r => Return r
  | Raise e =>
      if exc_is_Exception e then Return (ErrorDescriptor (exc_str e))
      else Raise e
  end.

Definition fetch_data (ticker start_date end_date : string)
  : prog (outcome Result) :=
  let yf_ticker := yf_ticker ticker in
  match adjust_end_date start_date end_date with
  | Raise e => Ret (Raise e)
  | Return end_date =>
      History (mkQuery yf_ticker start_date end_date)
        (fun answer => Ret (except_Exception (try_body answer)))
  end.

(** What the operating system sees of a run: the text written to standard
    output and the exit status. *)
Record Process := mkProcess { stdout : string; exit_code : Z }.

(** [print(s)] writes [s] and a newline. *)
Definition print (s : string) : string := s +:+ String "010" EmptyString.

Definition usage : string :=
  "Usage: python fetch_yfinance.py TICKER START_DATE END_DATE".

Section Main.

Variable float_repr : float -> string.

(** The [__main__] block.  [argv] is [sys.argv]: the script name followed by
    the positional arguments.  An exception that leaves [fetch_data] ends
    the interpreter before anything is printed on standard output, with
    status [uncaught_status]. *)
Definition main (argv : list string) : prog Process :=
  if Z.of_nat (length argv) <? 4 then
    Ret (mkProcess (print (dumps float_repr (JDict [("error", JStr usage)]))) 1)
  else
    let ticker := nth 1 argv EmptyString in
    let start := nth 2 argv EmptyString in
    let end_ := nth 3 argv EmptyString in
    pbind (fetch_data ticker start end_)
      (fun data =>
         match data with
         | Return data => Ret (mkProcess (print (dumps float_repr (result_json data))) 0)
         | Raise e => Ret (mkProcess EmptyString (uncaught_status e))
         end).

End Main.

End FetchYfinance.

Export FetchYfinance.

(* ===================================================================== *)
(** * Vocabulary of the properties *)
(* ===================================================================== *)

(** The end-date adjustment as one unconditional code path: parse, add one
    calendar day, format. *)
Definition end_date_plus_one_day (end_date : string) : outcome string :=
  dt <- strptime end_date ;;
  end_dt <- add_one_day dt ;;
  Return (strftime end_dt).


(** The [YYYY-MM-DD] form of a date: year, month and day zero-padded to
    four, two and two digits. *)
Definition ymd_text (d : datetime) : string :=
  pad4 (year d) +:+ "-" +:+ pad2 (month d) +:+ "-" +:+ pad2 (day d).

(** [test] holds of the [n] integers from [y] on. *)
Fixpoint all_from (test : Z -> bool) (n : nat) (y : Z) : bool :=
  match n with
  | O => true
  | S n' => test y && all_from test n' (y + 1)
  end.

(** A text of the shape [YYYY-MM-DD]: ten characters, digits around two
    dashes. *)
Definition is_ymd_text (s : string) : bool :=
  match s with
  | String y1 (String y2 (String y3 (String y4 (String d1
      (String m1 (String m2 (String d2 (String a1 (String a2 EmptyString))))))))) =>
      is_digit y1 && is_digit y2 && is_digit y3 && is_digit y4 &&
      Ascii.eqb d1 "-" && is_digit m1 && is_digit m2 &&
      Ascii.eqb d2 "-" && is_digit a1 && is_digit a2
  | _ => false
  end.

(** [s] between double quotes, with nothing escaped. *)
Definition quoted (s : string) : string :=
  String dquote (s +:+ String dquote EmptyString).

(** The text of a JSON object whose only member is ["error"], with the
    string literal [lit] as its value. *)
Definition error_object (lit : string) : string :=
  "{" +:+ quoted "error" +:+ ": " +:+ lit +:+ "}".

(** [row] and [bar] agree field by field: the bar's date is the row's
    [Timestamp] formatted, its prices are [float()] of the row's cells and
    its volume is [int()] of the row's cell. *)
Definition bar_of_row (row : Row) (bar : Bar) : Prop :=
  exists d c_open c_high c_low c_close c_volume,
    row !! "Date" = Some (PyTimestamp d) /\ date bar = strftime d /\
    row !! "Open" = Some c_open /\ py_float c_open = Return (open bar) /\
    row !! "High" = Some c_high /\ py_float c_high = Return (high bar) /\
    row !! "Low" = Some c_low /\ py_float c_low = Return (low bar) /\
    row !! "Close" = Some c_close /\ py_float c_close = Return (close bar) /\
    row !! "Volume" = Some c_volume /\ py_int c_volume = Return (volume bar).

(** A price cell that already is a float and a volume cell that already is
    an int reach the bar unchanged, whatever their value. *)
Definition cells_kept (row : Row) (bar : Bar) : Prop :=
  (forall f, row !! "Open" = Some (PyFloat f) -> open bar = f) /\
  (forall f, row !! "High" = Some (PyFloat f) -> high bar = f) /\
  (forall f, row !! "Low" = Some (PyFloat f) -> low bar = f) /\
  (forall f, row !! "Close" = Some (PyFloat f) -> close bar = f) /\
  (forall n, row !! "Volume" = Some (PyInt n) -> volume bar = n).


(** [n] is the finite float [f] with its fractional part dropped: of the
    sign of [f], and with [|n| <= |f| < |n| + 1], where [|f|] is
    [m * 2 ^ e]. *)
Definition truncation_of (f : float) (n : Z) : Prop :=
  match Prim2SF f with
  | S754_zero _ => n = 0
  | S754_finite s m e =>
      (if s then n <= 0 else 0 <= n) /\
      Z.abs n * 2 ^ Z.max 0 (- e) <= Z.pos m * 2 ^ Z.max 0 e
        < (Z.abs n + 1) * 2 ^ Z.max 0 (- e)
  | _ => False
  end.

(** A volume cell that is a float reaches the bar truncated towards
    zero. *)
Definition volume_truncated (row : Row) (bar : Bar) : Prop :=
  forall f, row !! "Volume" = Some (PyFloat f) -> truncation_of f (volume bar).

(** From the year 1000 on, the bar's date has the shape [YYYY-MM-DD]. *)
Definition date_in_ymd_form (row : Row) (bar : Bar) : Prop :=
  forall d, row !! "Date" = Some (PyTimestamp d) -> 1000 <= year d <= 9999 ->
            is_ymd_text (date bar) = true.

(** ** Sample data for the worked instances *)

(** A row with the six columns the script reads. *)
Definition sample_row (d : datetime) (o h l c v : pyval) : Row :=
  <["Date" := PyTimestamp d]> (<["Open" := o]> (<["High" := h]>
    (<["Low" := l]> (<["Close" := c]> (<["Volume" := v]> ∅))))).

(** A table that is neither sorted by date nor free of repeated rows. *)
Definition sample_table : DataFrame :=
  [ sample_row (mkDate 2024 1 3) (PyFloat 9100) (PyFloat 9175.5) (PyInt 9050)
      (PyFloat 9125.25) (PyInt 1000);
    sample_row (mkDate 2024 1 2) (PyFloat 9000) (PyFloat nan) (PyFloat 8950)
      (PyFloat (-1)) (PyInt (-5));
    sample_row (mkDate 2024 1 3) (PyFloat 9100) (PyFloat 9175.5) (PyInt 9050)
      (PyFloat 9125.25) (PyInt 1000) ].

Definition sample_bars : list Bar :=
  [ mkBar "2024-01-03" 9100 9175.5 9050 9125.25 1000;
    mkBar "2024-01-02" 9000 nan 8950 (-1) (-5);
    mkBar "2024-01-03" 9100 9175.5 9050 9125.25 1000 ].

(** A table whose second row cannot be converted: its volume is NaN. *)
Definition broken_table : DataFrame :=
  [ sample_row (mkDate 2024 1 2) (PyFloat 9000) (PyFloat 9050) (PyFloat 8950)
      (PyFloat 9025) (PyInt 1200);
    sample_row (mkDate 2024 1 3) (PyFloat 9100) (PyFloat 9175.5) (PyFloat 9050)
      (PyFloat 9125.25) (PyFloat nan) ].

(** A table with one row and no column: after [reset_index] the row holds
    the former index only. *)
Definition index_only_table : DataFrame :=
  [ {[ "Date" := PyTimestamp (mkDate 2024 1 2) ]} ].

(** A table with a row dated in the year 999. *)
Definition year_999_table : DataFrame :=
  [ sample_row (mkDate 999 1 5) (PyFloat 9000) (PyFloat 9050) (PyFloat 8950)
      (PyFloat 9025) (PyInt 1200) ].

(** A table whose volumes are floats with a fractional part. *)
Definition float_volume_table : DataFrame :=
  [ sample_row (mkDate 2024 1 2) (PyFloat 9000) (PyFloat 9050) (PyFloat 8950)
      (PyFloat 9025) (PyFloat 1200.75);
    sample_row (mkDate 2024 1 3) (PyInt 9100) (PyFloat 9175.5) (PyFloat 9050)
      (PyFloat 9125.25) (PyFloat (-7.5)) ].

Definition float_volume_bars : list Bar :=
  [ mkBar "2024-01-02" 9000 9050 8950 9025 1200;
    mkBar "2024-01-03" 9100 9175.5 9050 9125.25 (-7) ].

(** A table whose index is called [Datetime], as for intraday history:
    every row has the label [Datetime] and none has [Date]. *)
Definition datetime_row (d : datetime) (o h l c v : pyval) : Row :=
  <["Datetime" := PyTimestamp d]> (<["Open" := o]> (<["High" := h]>
    (<["Low" := l]> (<["Close" := c]> (<["Volume" := v]> ∅))))).

Definition datetime_table : DataFrame :=
  [ datetime_row (mkDate 2024 1 2) (PyFloat 9000) (PyFloat 9050) (PyFloat 8950)
      (PyFloat 9025) (PyInt 1200);
    datetime_row (mkDate 2024 1 3) (PyFloat 9100) (PyFloat 9175.5) (PyFloat 9050)
      (PyFloat 9125.25) (PyInt 1000) ].

(** A provider that gives every query the same answer. *)
Definition always (answer : outcome DataFrame) : Query -> outcome DataFrame :=
  fun _ => answer.

(** A stand-in for [float.__repr__] in runs that print no float. *)
Definition no_float_repr : float -> string := fun _ => EmptyString.

(** [sys.argv] of [python fetch_yfinance.py TICKER START END]. *)
Definition argv_of (ticker start end_ : string) : list string :=
  ["fetch_yfinance.py"; ticker; start; end_].

(** ** Texts *)

(** Every character of [s] satisfies [p]. *)
Fixpoint all_chars (p : ascii -> bool) (s : string) : bool :=
  match s with
  | EmptyString => true
  | String c r => p c && all_chars p r
  end.

(** The printable ASCII characters, space to tilde. *)
Definition printable_ascii (c : ascii) : bool := in_range " " "~" c.

(** The first character of a text. *)
Definition head_char (s : string) : option ascii :=
  match s with
  | EmptyString => None
  | String c _ => Some c
  end.

(** The query [main] sends for a command line, if it sends one. *)
Definition expected_queries (argv : list string) : list Query :=
  match argv with
  | _ :: ticker :: start :: end_ :: _ =>
      match adjust_end_date start end_ with
      | Return end' => [mkQuery (ticker +:+ ".JK") start end']
      | Raise _ => []
      end
  | _ => []
  end.

(** One more row for the sample table, a day later. *)
Definition sample_next_row : Row :=
  sample_row (mkDate 2024 1 4) (PyFloat 9125.25) (PyFloat 9200) (PyFloat 9100)
    (PyFloat 9150) (PyInt 800).

(** The bar's date text reads back as the date of the row's [Timestamp]. *)
Definition date_reads_back (row : Row) (bar : Bar) : Prop :=
  exists d, row !! "Date" = Some (PyTimestamp d) /\ strptime (date bar) = Return d.

(** The [Date] cell of the row, if any, holds a calendar date from the year
    1000 on. *)
Definition date_cell_valid (row : Row) : Prop :=
  forall d, row !! "Date" = Some (PyTimestamp d) ->
            valid_date d = true /\ 1000 <= year d.

(* ===================================================================== *)
(** * Characters and digits *)
(* ===================================================================== *)

Lemma code_chr (n : Z) : 0 <= n < 256 -> code (chr n) = n.
Proof.
  intros H. unfold code, chr.
  rewrite N_ascii_embedding by lia. lia.
Qed.

Lemma chr_code (c : ascii) : chr (code c) = c.
Proof.
  unfold code, chr. rewrite N2Z.id. apply ascii_N_embedding.
Qed.

Lemma code_inj (a b : ascii) : code a = code b -> a = b.
Proof.
  intros H. rewrite <- (chr_code a), <- (chr_code b). now rewrite H.
Qed.

Lemma in_range_spec (lo hi c : ascii) :
  in_range lo hi c = true <-> code lo <= code c <= code hi.
Proof.
  unfold in_range. rewrite andb_true_iff, !Z.leb_le. tauto.
Qed.

Lemma is_digit_spec (c : ascii) : is_digit c = true <-> 48 <= code c <= 57.
Proof. unfold is_digit. rewrite in_range_spec. reflexivity. Qed.

Lemma is_digit_chr (k : Z) : 0 <= k <= 9 -> is_digit (digit_chr k) = true.
Proof.
  intros H. apply is_digit_spec. unfold digit_chr. rewrite code_chr; lia.
Qed.

Lemma digit_val_chr (k : Z) : 0 <= k <= 9 -> digit_val (digit_chr k) = k.
Proof.
  intros H. unfold digit_val, digit_chr. rewrite code_chr; lia.
Qed.

Lemma eqb_code (a b : ascii) : Ascii.eqb a b = (code a =? code b).
Proof.
  destruct (Ascii.eqb_spec a b) as [->|N].
  - symmetry. apply Z.eqb_refl.
  - symmetry. apply Z.eqb_neq. intros E. apply N, code_inj, E.
Qed.

(* ===================================================================== *)
(** * The calendar *)
(* ===================================================================== *)

Lemma days_in_month_range (y m : Z) : 28 <= days_in_month y m <= 31.
Proof.
  unfold days_in_month.
  destruct (m =? 2); [destruct (is_leap y); lia|].
  destruct ((m =? 4) || (m =? 6) || (m =? 9) || (m =? 11)); lia.
Qed.

Lemma valid_date_spec (d : datetime) :
  valid_date d = true <->
  1 <= year d <= 9999 /\ 1 <= month d <= 12 /\
  1 <= day d <= days_in_month (year d) (month d).
Proof.
  unfold valid_date, MINYEAR, MAXYEAR.
  rewrite !andb_true_iff, !Z.leb_le. tauto.
Qed.

Lemma max_date_valid : valid_date max_date = true.
Proof. reflexivity. Qed.

(** Only the last day of year 9999 has a successor outside the range. *)
Lemma next_day_year (d : datetime) :
  valid_date d = true -> d <> max_date -> year (next_day d) <= 9999.
Proof.
  intros V N. apply valid_date_spec in V. destruct V as (Hy & Hm & Hd).
  pose proof (days_in_month_range (year d) (month d)) as R.
  unfold next_day.
  destruct (Z.ltb_spec (day d) (days_in_month (year d) (month d))); cbn; [lia|].
  destruct (Z.ltb_spec (month d) 12); cbn; [lia|].
  assert (Em : month d = 12) by lia.
  assert (Ed : day d = 31).
  { rewrite Em in *. change (days_in_month (year d) 12) with 31 in *. lia. }
  assert (year d <> 9999); [|lia].
  intros Ey. apply N. destruct d as [y m dd]; cbn in *. subst. reflexivity.
Qed.

Lemma next_day_valid (d : datetime) :
  valid_date d = true -> d <> max_date -> valid_date (next_day d) = true.
Proof.
  intros V N. pose proof (next_day_year d V N) as Y.
  apply valid_date_spec in V. destruct V as (Hy & Hm & Hd).
  apply valid_date_spec. revert Y. unfold next_day.
  destruct (Z.ltb_spec (day d) (days_in_month (year d) (month d))); cbn; [lia|].
  destruct (Z.ltb_spec (month d) 12); cbn; intros Y.
  - pose proof (days_in_month_range (year d) (month d + 1)). lia.
  - pose proof (days_in_month_range (year d + 1) 1). lia.
Qed.

Lemma add_one_day_ok (d : datetime) :
  valid_date d = true -> d <> max_date -> add_one_day d = Return (next_day d).
Proof.
  intros V N. unfold add_one_day. cbv zeta.
  pose proof (next_day_year d V N) as Y.
  destruct (Z.leb_spec (year (next_day d)) MAXYEAR) as [_|L]; [reflexivity|].
  unfold MAXYEAR in L. lia.
Qed.

Lemma add_one_day_max :
  add_one_day max_date = Raise (OverflowError "date value out of range").
Proof. reflexivity. Qed.

(** A leap year is one day longer: the step of the leap-day count. *)
Lemma leap_count_step (y : Z) :
  y / 4 - y / 100 + y / 400 =
  (y - 1) / 4 - (y - 1) / 100 + (y - 1) / 400 + (if is_leap y then 1 else 0).
Proof.
  unfold is_leap.
  destruct (Z.eqb_spec (y mod 4) 0) as [E4|E4];
  destruct (Z.eqb_spec (y mod 100) 0) as [E100|E100];
  destruct (Z.eqb_spec (y mod 400) 0) as [E400|E400]; cbn;
  Z.div_mod_to_equations; lia.
Qed.

Lemma days_before_year_step (y : Z) :
  days_before_year (y + 1) = days_before_year y + 365 + (if is_leap y then 1 else 0).
Proof.
  unfold days_before_year. cbv zeta.
  replace (y + 1 - 1) with y by lia.
  pose proof (leap_count_step y). lia.
Qed.

Lemma days_before_month_step (y m : Z) :
  1 <= m < 12 ->
  days_before_month y (m + 1) = days_before_month y m + days_in_month y m.
Proof.
  intros H.
  assert (C : m = 1 \/ m = 2 \/ m = 3 \/ m = 4 \/ m = 5 \/ m = 6 \/ m = 7 \/
              m = 8 \/ m = 9 \/ m = 10 \/ m = 11) by lia.
  unfold days_before_month, days_in_month.
  repeat destruct C as [C|C]; subst m; cbn; destruct (is_leap y); reflexivity.
Qed.

(** [next_day] is the date whose proleptic Gregorian ordinal is one more:
    what adding [timedelta(days=1)] means. *)
Lemma toordinal_next_day (d : datetime) :
  valid_date d = true -> toordinal (next_day d) = toordinal d + 1.
Proof.
  intros V. apply valid_date_spec in V. destruct V as (Hy & Hm & Hd).
  unfold next_day, toordinal.
  destruct (Z.ltb_spec (day d) (days_in_month (year d) (month d))); cbn; [lia|].
  destruct (Z.ltb_spec (month d) 12); cbn.
  - rewrite days_before_month_step by lia. lia.
  - assert (Em : month d = 12) by lia. rewrite Em in *.
    rewrite days_before_year_step.
    change (days_before_month (year d + 1) 1) with 0.
    change (days_before_month (year d) 12)
      with (334 + (if is_leap (year d) then 1 else 0)).
    change (days_in_month (year d) 12) with 31 in *.
    destruct (is_leap (year d)); lia.
Qed.

(* ===================================================================== *)
(** * [strptime] and [strftime] *)
(* ===================================================================== *)

(** Turn the boolean tests of the matcher into facts about character
    codes. *)
Ltac code_literals :=
  repeat match goal with
    | H : context [code (Ascii ?a ?b ?c ?d ?e ?f ?g ?h)] |- _ =>
        let v := eval vm_compute in (code (Ascii a b c d e f g h)) in
        change (code (Ascii a b c d e f g h)) with v in H
    end.

Ltac bool_facts :=
  repeat match goal with
    | H : _ && _ = true |- _ => apply andb_true_iff in H; destruct H
    | H : Ascii.eqb _ _ = true |- _ => rewrite eqb_code in H; apply Z.eqb_eq in H
    | H : in_range _ _ _ = true |- _ => apply in_range_spec in H
    | H : is_digit _ = true |- _ => apply is_digit_spec in H
    end;
  code_literals.

Ltac split_ifs :=
  repeat match goal with
    | |- context [if ?b then _ else _] => destruct b eqn:?
    end.

Lemma month_alts_range (s : string) :
  Forall (fun x : Z * string => 1 <= fst x <= 12) (month_alts s).
Proof.
  unfold month_alts. destruct s as [|a [|b r]]; split_ifs; cbn;
    repeat constructor; cbn; unfold digit_val; bool_facts; lia.
Qed.

Lemma day_alts_range (s : string) :
  Forall (fun x : Z * string => 1 <= fst x <= 31) (day_alts s).
Proof.
  unfold day_alts. destruct s as [|a [|b r]]; split_ifs; cbn;
    repeat constructor; cbn; unfold digit_val; bool_facts; lia.
Qed.

Lemma first_match_Some {A B} (f : A -> option B) (l : list A) (y : B) :
  first_match f l = Some y -> exists x, In x l /\ f x = Some y.
Proof.
  induction l as [|x l IH]; cbn; [discriminate|].
  destruct (f x) as [z|] eqn:E.
  - intros [= <-]. exists x. auto.
  - intros H. destruct (IH H) as (x' & I & F). exists x'. auto.
Qed.

(** What a match yields lies in the ranges of the three groups. *)
Lemma match_ymd_range (s : string) (y m d : Z) (rest : string) :
  match_ymd s = Some (y, m, d, rest) ->
  0 <= y <= 9999 /\ 1 <= m <= 12 /\ 1 <= d <= 31.
Proof.
  unfold match_ymd.
  destruct s as [|y1 [|y2 [|y3 [|y4 r]]]]; try discriminate.
  destruct (is_digit y1 && is_digit y2 && is_digit y3 && is_digit y4) eqn:D;
    [|discriminate].
  destruct (after_dash r) as [r1|]; [|discriminate].
  intros H. apply first_match_Some in H. destruct H as ([m' r2] & I & F).
  cbn in F.
  destruct (after_dash r2) as [r3|]; [|discriminate].
  pose proof (day_alts_range r3) as DR.
  destruct (day_alts r3) as [|[d' r4] tl]; [discriminate|].
  injection F as <- <- <- <-.
  pose proof (month_alts_range r1) as MR.
  rewrite List.Forall_forall in MR. specialize (MR _ I).
  apply Forall_inv in DR. cbn in *.
  unfold digit_val. bool_facts. lia.
Qed.

(** [strptime] only returns dates a [datetime] can hold. *)
Lemma strptime_valid (s : string) (d : datetime) :
  strptime s = Return d -> valid_date d = true.
Proof.
  unfold strptime.
  destruct (match_ymd s) as [[[[y m] dd] rest]|] eqn:M; [|discriminate].
  apply match_ymd_range in M. destruct M as (Hy & Hm & Hd).
  destruct (negb (is_empty rest)); [discriminate|].
  destruct (Z.ltb_spec y MINYEAR); [discriminate|].
  destruct (Z.ltb_spec (days_in_month y m) dd); [discriminate|].
  intros [= <-]. apply valid_date_spec. cbn. unfold MINYEAR in *. lia.
Qed.

Lemma decimal4 (y : Z) :
  0 <= y <= 9999 ->
  1000 * (y / 1000 mod 10) + 100 * (y / 100 mod 10) + 10 * (y / 10 mod 10)
  + y mod 10 = y.
Proof. intros H. Z.div_mod_to_equations. lia. Qed.

Lemma mod10_digit (n : Z) : 0 <= n mod 10 <= 9.
Proof. pose proof (Z.mod_pos_bound n 10). lia. Qed.

Lemma month_alts_pad2 (m : Z) (r : string) :
  1 <= m <= 12 -> exists tl, month_alts (pad2 m +:+ r) = (m, r) :: tl.
Proof.
  intros H.
  assert (C : m = 1 \/ m = 2 \/ m = 3 \/ m = 4 \/ m = 5 \/ m = 6 \/ m = 7 \/
              m = 8 \/ m = 9 \/ m = 10 \/ m = 11 \/ m = 12) by lia.
  repeat destruct C as [C|C]; subst m; eexists; reflexivity.
Qed.

Lemma day_alts_pad2 (d : Z) :
  1 <= d <= 31 -> exists tl, day_alts (pad2 d) = (d, EmptyString) :: tl.
Proof.
  intros H.
  assert (C : exists k, 0 <= k <= 30 /\ d = 1 + k) by (exists (d - 1); lia).
  destruct C as (k & Hk & ->).
  assert (C : k = 0 \/ k = 1 \/ k = 2 \/ k = 3 \/ k = 4 \/ k = 5 \/ k = 6 \/
              k = 7 \/ k = 8 \/ k = 9 \/ k = 10 \/ k = 11 \/ k = 12 \/ k = 13 \/
              k = 14 \/ k = 15 \/ k = 16 \/ k = 17 \/ k = 18 \/ k = 19 \/
              k = 20 \/ k = 21 \/ k = 22 \/ k = 23 \/ k = 24 \/ k = 25 \/
              k = 26 \/ k = 27 \/ k = 28 \/ k = 29 \/ k = 30) by lia.
  repeat destruct C as [C|C]; subst k; eexists; reflexivity.
Qed.

Lemma app_String (c : ascii) (s r : string) : String c s +:+ r = String c (s +:+ r).
Proof. reflexivity. Qed.

Lemma app_Empty (r : string) : EmptyString +:+ r = r.
Proof. reflexivity. Qed.

Lemma ymd_text_chars (d : datetime) :
  ymd_text d =
  String (digit_chr (year d / 1000 mod 10))
    (String (digit_chr (year d / 100 mod 10))
       (String (digit_chr (year d / 10 mod 10))
          (String (digit_chr (year d mod 10))
             (String "-" (pad2 (month d) +:+ String "-" (pad2 (day d))))))).
Proof. reflexivity. Qed.

Lemma match_ymd_ymd_text (d : datetime) :
  valid_date d = true ->
  match_ymd (ymd_text d) = Some (year d, month d, day d, EmptyString).
Proof.
  intros V. apply valid_date_spec in V. destruct V as (Hy & Hm & Hd).
  pose proof (days_in_month_range (year d) (month d)) as R.
  destruct (month_alts_pad2 (month d) (String "-" (pad2 (day d))) Hm) as (tm & Em).
  destruct (day_alts_pad2 (day d)) as (td & Ed); [lia|].
  rewrite ymd_text_chars. unfold match_ymd.
  rewrite !is_digit_chr by apply mod10_digit.
  rewrite !digit_val_chr by apply mod10_digit.
  cbn [andb after_dash Ascii.eqb Bool.eqb].
  rewrite Em. cbn [first_match snd fst after_dash Ascii.eqb Bool.eqb].
  rewrite Ed. cbn [fst snd].
  rewrite decimal4 by lia. reflexivity.
Qed.

(** Parsing the [YYYY-MM-DD] form of a date gives the date back. *)
Lemma strptime_ymd_text (d : datetime) :
  valid_date d = true -> strptime (ymd_text d) = Return d.
Proof.
  intros V. unfold strptime. rewrite (match_ymd_ymd_text d V).
  apply valid_date_spec in V. destruct V as (Hy & Hm & Hd).
  cbn [is_empty negb].
  destruct (Z.ltb_spec (year d) MINYEAR) as [L|_]; [unfold MINYEAR in L; lia|].
  destruct (Z.ltb_spec (days_in_month (year d) (month d)) (day d)) as [L|_]; [lia|].
  destruct d; reflexivity.
Qed.

Lemma is_ymd_text_ymd_text (d : datetime) : is_ymd_text (ymd_text d) = true.
Proof.
  rewrite ymd_text_chars. unfold pad2. rewrite !app_String, app_Empty.
  unfold is_ymd_text.
  rewrite !is_digit_chr by apply mod10_digit. reflexivity.
Qed.

Lemma all_from_spec (test : Z -> bool) (n : nat) (y0 y : Z) :
  all_from test n y0 = true -> y0 <= y < y0 + Z.of_nat n -> test y = true.
Proof.
  revert y0. induction n as [|n IH]; intros y0 A H; [lia|].
  cbn [all_from] in A. apply andb_true_iff in A. destruct A as (T & A).
  destruct (Z.eq_dec y y0) as [->|NE]; [exact T|].
  apply (IH (y0 + 1) A). lia.
Qed.

(** From the year 1000 on the unpadded year has four digits. *)
Lemma str_of_int_pad4 (y : Z) : 1000 <= y <= 9999 -> str_of_int y = pad4 y.
Proof.
  intros H. apply String.eqb_eq.
  apply (all_from_spec (fun y => String.eqb (str_of_int y) (pad4 y))
           (Z.to_nat 9000) 1000 y).
  - vm_compute. reflexivity.
  - rewrite Z2Nat.id; lia.
Qed.

(** From the year 1000 on [strftime] writes the [YYYY-MM-DD] form. *)
Lemma strftime_ymd_text (d : datetime) :
  1000 <= year d <= 9999 -> strftime d = ymd_text d.
Proof.
  intros H. unfold strftime, ymd_text. now rewrite str_of_int_pad4.
Qed.

(* ===================================================================== *)
(** * JSON string literals *)
(* ===================================================================== *)

Lemma app_assoc_string (a b c : string) : (a +:+ b) +:+ c = a +:+ (b +:+ c).
Proof.
  induction a as [|x a IH]; [reflexivity|].
  rewrite !app_String. now rewrite IH.
Qed.

(** Reading back what [escape_char] wrote gives the character. *)
Lemma read_chars_escape_char (c : ascii) (rest : string) :
  read_chars (escape_char c +:+ rest) = cons_char c (read_chars rest).
Proof.
  destruct c as [[] [] [] [] [] [] [] []]; reflexivity.
Qed.

Lemma read_chars_escape (s : string) :
  read_chars (escape s +:+ String dquote EmptyString) = Some s.
Proof.
  induction s as [|c s IH]; [reflexivity|].
  cbn [escape]. rewrite app_assoc_string, read_chars_escape_char, IH.
  reflexivity.
Qed.

(** What [json.dumps] writes for a [str] is a JSON string literal, and the
    literal denotes that [str]. *)
Lemma read_string_encode_string (s : string) :
  read_string (encode_string s) = Some s.
Proof.
  unfold encode_string, read_string.
  change (Ascii.eqb dquote dquote) with true. cbv iota.
  apply read_chars_escape.
Qed.

Lemma encode_string_inj (s1 s2 : string) :
  encode_string s1 = encode_string s2 -> s1 = s2.
Proof.
  intros E. apply (f_equal read_string) in E.
  rewrite !read_string_encode_string in E. congruence.
Qed.

Lemma app_inv_head_string (a b c : string) : a +:+ b = a +:+ c -> b = c.
Proof.
  induction a as [|x a IH]; [trivial|].
  rewrite !app_String. intros [= E]. auto.
Qed.

Lemma app_inv_tail_char (a b : string) (c : ascii) :
  a +:+ String c EmptyString = b +:+ String c EmptyString -> a = b.
Proof.
  revert b. induction a as [|x a IH]; intros [|y b]; rewrite ?app_String, ?app_Empty.
  - reflexivity.
  - intros [= -> E]. destruct b; discriminate.
  - intros [= -> E]. destruct a; discriminate.
  - intros [= -> E]. f_equal. auto.
Qed.

(** The printed error object determines the literal inside it. *)
Lemma print_error_object_inj (l1 l2 : string) :
  print (error_object l1) = print (error_object l2) -> l1 = l2.
Proof.
  unfold print. intros E. apply app_inv_tail_char in E.
  unfold error_object in E.
  do 3 apply app_inv_head_string in E.
  apply (app_inv_tail_char l1 l2 "}"), E.
Qed.

(* ===================================================================== *)
(** * The row loop *)
(* ===================================================================== *)

Lemma row_to_bar_spec (row : Row) (bar : Bar) :
  row_to_bar row = Return bar <-> bar_of_row row bar.
Proof.
  unfold row_to_bar, bar_of_row, getitem. split.
  - destruct (row !! "Date") as [c_date|]; [|discriminate]. cbn.
    destruct c_date as [d| |]; try discriminate. cbn.
    destruct (row !! "Open") as [c_open|]; [|discriminate]. cbn.
    destruct (py_float c_open) as [v_open|] eqn:Eo; [|discriminate]. cbn.
    destruct (row !! "High") as [c_high|]; [|discriminate]. cbn.
    destruct (py_float c_high) as [v_high|] eqn:Eh; [|discriminate]. cbn.
    destruct (row !! "Low") as [c_low|]; [|discriminate]. cbn.
    destruct (py_float c_low) as [v_low|] eqn:El; [|discriminate]. cbn.
    destruct (row !! "Close") as [c_close|]; [|discriminate]. cbn.
    destruct (py_float c_close) as [v_close|] eqn:Ec; [|discriminate]. cbn.
    destruct (row !! "Volume") as [c_volume|]; [|discriminate]. cbn.
    destruct (py_int c_volume) as [v_volume|] eqn:Ev; [|discriminate]. cbn.
    intros [= <-]. cbn.
    exists d, c_open, c_high, c_low, c_close, c_volume. tauto.
  - intros (d & c_open & c_high & c_low & c_close & c_volume &
            -> & Hd & -> & Ho & -> & Hh & -> & Hl & -> & Hc & -> & Hv).
    cbn. rewrite Ho. cbn. rewrite Hh. cbn. rewrite Hl. cbn. rewrite Hc. cbn.
    rewrite Hv. cbn. destruct bar; cbn in *. now subst.
Qed.

(** The loop returns exactly when every row converts, and then [results]
    has grown by the rows' bars, one per row, in the rows' order. *)
Lemma iterrows_loop_Return (rows : DataFrame) (acc res : list Bar) :
  iterrows_loop rows acc = Return res <->
  exists bars,
    Forall2 (fun row bar => row_to_bar row = Return bar) rows bars /\
    res = (acc ++ bars)%list.
Proof.
  revert acc. induction rows as [|row rows IH]; intros acc; cbn.
  - split.
    + intros [= <-]. exists []. split; [constructor|]. now rewrite app_nil_r.
    + intros (bars & F & ->). inversion F. now rewrite app_nil_r.
  - destruct (row_to_bar row) as [bar|e] eqn:E; cbn.
    + rewrite IH. split.
      * intros (bars & F & ->). exists (bar :: bars). split.
        -- now constructor.
        -- now rewrite <- app_assoc.
      * intros (bars & F & ->). inversion F as [|? b ? bs Hb Hbs]; subst.
        assert (b = bar) by congruence. subst b.
        exists bs. split; [assumption|]. now rewrite <- app_assoc.
    + split; [discriminate|].
      intros (bars & F & _). inversion F; congruence.
Qed.

(** The loop raises the exception of the first row that fails to convert,
    whatever rows follow it. *)
Lemma iterrows_loop_Raise (rows : DataFrame) (acc : list Bar) (e : PyExc) :
  iterrows_loop rows acc = Raise e <->
  exists pre row post bars,
    rows = (pre ++ row :: post)%list /\
    Forall2 (fun row bar => row_to_bar row = Return bar) pre bars /\
    row_to_bar row = Raise e.
Proof.
  revert acc. induction rows as [|row rows IH]; intros acc; cbn.
  - split; [discriminate|].
    intros (pre & r & post & bars & E & _). destruct pre; discriminate.
  - destruct (row_to_bar row) as [bar|e'] eqn:E; cbn.
    + rewrite IH. split.
      * intros (pre & r & post & bars & -> & F & R).
        exists (row :: pre), r, post, (bar :: bars).
        repeat split; [now constructor | assumption].
      * intros (pre & r & post & bars & Er & F & R).
        destruct pre as [|p pre]; cbn in Er.
        -- injection Er as -> ->. congruence.
        -- injection Er as -> ->. inversion F; subst.
           eexists pre, r, post, _. eauto.
    + split.
      * intros [= ->]. exists [], row, rows, []. repeat split; [constructor | assumption].
      * intros (pre & r & post & bars & Er & F & R).
        destruct pre as [|p pre]; cbn in Er.
        -- injection Er as -> ->. congruence.
        -- injection Er as -> ->. inversion F; subst. congruence.
Qed.


(* ===================================================================== *)
(** * The end-date adjustment and the provider query *)
(* ===================================================================== *)

Lemma adjust_end_date_unified (start_date end_date : string) :
  adjust_end_date start_date end_date = end_date_plus_one_day end_date.
Proof.
  unfold adjust_end_date. destruct (String.eqb start_date end_date); reflexivity.
Qed.

Lemma end_date_plus_one_day_ok (end_date : string) (d : datetime) :
  strptime end_date = Return d -> d <> max_date ->
  end_date_plus_one_day end_date = Return (strftime (next_day d)).
Proof.
  intros P N. unfold end_date_plus_one_day. rewrite P. cbn [bind].
  rewrite add_one_day_ok; [reflexivity | eapply strptime_valid; eassumption | assumption].
Qed.

(** The adjustment succeeds exactly on the texts [strptime] accepts as a
    date before [datetime.max]. *)
Lemma end_date_plus_one_day_Return (end_date end' : string) :
  end_date_plus_one_day end_date = Return end' <->
  exists d, strptime end_date = Return d /\ d <> max_date /\
            end' = strftime (next_day d).
Proof.
  split.
  - unfold end_date_plus_one_day.
    destruct (strptime end_date) as [d|e] eqn:P; [|discriminate]. cbn [bind].
    destruct (add_one_day d) as [d'|e] eqn:A; [|discriminate]. cbn [bind].
    intros [= <-]. exists d. split; [reflexivity|].
    assert (N : d <> max_date).
    { intros ->. rewrite add_one_day_max in A. discriminate. }
    split; [assumption|].
    rewrite add_one_day_ok in A by eauto using strptime_valid. congruence.
  - intros (d & P & N & ->). now apply end_date_plus_one_day_ok.
Qed.

Lemma fetch_data_query (ticker start_date end_date end' : string) :
  adjust_end_date start_date end_date = Return end' ->
  fetch_data ticker start_date end_date =
  History (mkQuery (ticker +:+ ".JK") start_date end')
    (fun answer => Ret (except_Exception (try_body answer))).
Proof. intros A. unfold fetch_data. rewrite A. reflexivity. Qed.

Lemma run_fetch_data (provider : Query -> outcome DataFrame)
  (ticker start_date end_date end' : string) :
  adjust_end_date start_date end_date = Return end' ->
  run provider (fetch_data ticker start_date end_date) =
  except_Exception
    (try_body (provider (mkQuery (ticker +:+ ".JK") start_date end'))).
Proof. intros A. rewrite (fetch_data_query _ _ _ _ A). reflexivity. Qed.

Lemma run_fetch_data_parsed (provider : Query -> outcome DataFrame)
  (ticker start_date end_date : string) (d : datetime) :
  strptime end_date = Return d -> d <> max_date ->
  run provider (fetch_data ticker start_date end_date) =
  except_Exception
    (try_body (provider (mkQuery (ticker +:+ ".JK") start_date
                           (strftime (next_day d))))).
Proof.
  intros P N. apply run_fetch_data. rewrite adjust_end_date_unified.
  now apply end_date_plus_one_day_ok.
Qed.

(** The handler returns when the body returns or raises an instance of
    [Exception]. *)
Lemma except_Exception_returns (body : outcome Result) :
  (forall e, body = Raise e -> exc_is_Exception e = true) ->
  raised (except_Exception body) = false.
Proof.
  destruct body as [r|e]; intros H; [reflexivity|].
  cbn. rewrite (H e eq_refl). reflexivity.
Qed.

(** What leaves the handler is what the body raised outside [Exception]. *)
Lemma except_Exception_Raise (body : outcome Result) (e : PyExc) :
  except_Exception body = Raise e <->
  body = Raise e /\ exc_is_Exception e = false.
Proof.
  destruct body as [r|e']; cbn.
  - split; [discriminate | intros ([=] & _)].
  - destruct (exc_is_Exception e') eqn:C.
    + split; [discriminate|]. intros ([= ->] & F). congruence.
    + split; [intros [= <-]; auto | intros ([= ->] & _); reflexivity].
Qed.

Lemma bind_Raise {A B} (x : outcome A) (f : A -> outcome B) (e : PyExc) :
  bind x f = Raise e -> x = Raise e \/ exists a, x = Return a /\ f a = Raise e.
Proof.
  destruct x as [a|e']; cbn; intros H; [right; eauto | left].
  injection H as ->. reflexivity.
Qed.



Lemma getitem_Raise (row : Row) (label : string) (e : PyExc) :
  getitem row label = Raise e -> exc_is_Exception e = true.
Proof.
  unfold getitem. destruct (row !! label); [discriminate|].
  intros [= <-]. reflexivity.
Qed.

Lemma py_strftime_Raise (v : pyval) (e : PyExc) :
  py_strftime v = Raise e -> exc_is_Exception e = true.
Proof. destruct v; cbn; [discriminate | |]; intros [= <-]; reflexivity. Qed.

Lemma py_float_Raise (v : pyval) (e : PyExc) :
  py_float v = Raise e -> exc_is_Exception e = true.
Proof.
  destruct v as [d|f|n]; cbn; [intros [= <-]; reflexivity | discriminate |].
  destruct (binary_normalize prec emax n 0 false); try discriminate.
  intros [= <-]. reflexivity.
Qed.

Lemma py_int_Raise (v : pyval) (e : PyExc) :
  py_int v = Raise e -> exc_is_Exception e = true.
Proof.
  destruct v as [d|f|n]; cbn; [intros [= <-]; reflexivity | | discriminate].
  destruct (Prim2SF f); try discriminate; intros [= <-]; reflexivity.
Qed.

(** Everything the row conversion raises is an instance of [Exception]. *)
Lemma row_to_bar_Raise (row : Row) (e : PyExc) :
  row_to_bar row = Raise e -> exc_is_Exception e = true.
Proof.
  unfold row_to_bar. intros H.
  repeat match type of H with
    | bind _ _ = Raise _ =>
        apply bind_Raise in H; destruct H as [H|(? & _ & H)]
    end;
    eauto using getitem_Raise, py_strftime_Raise, py_float_Raise, py_int_Raise.
  discriminate.
Qed.

Lemma iterrows_loop_Raise_class (rows : DataFrame) (acc : list Bar) (e : PyExc) :
  iterrows_loop rows acc = Raise e -> exc_is_Exception e = true.
Proof.
  intros H. apply iterrows_loop_Raise in H.
  destruct H as (pre & row & post & bars & _ & _ & R).
  eapply row_to_bar_Raise, R.
Qed.

(** The [try] body raises what the provider raised, or an instance of
    [Exception]. *)
Lemma try_body_Raise (answer : outcome DataFrame) (e : PyExc) :
  try_body answer = Raise e -> answer = Raise e \/ exc_is_Exception e = true.
Proof.
  unfold try_body. destruct answer as [df|e']; cbn; [|intros [= ->]; auto].
  destruct (empty df); [discriminate|].
  destruct (iterrows_loop df []) as [res|e'] eqn:L; cbn; [discriminate|].
  intros [= ->]. right. eapply iterrows_loop_Raise_class, L.
Qed.

Lemma try_body_rows (df : DataFrame) :
  empty df = false ->
  try_body (Return df) = (results <- iterrows_loop df [] ;; Return (Bars results)).
Proof. intros E. unfold try_body. cbn [bind]. rewrite E. reflexivity. Qed.

Lemma try_body_empty (df : DataFrame) :
  empty df = true -> try_body (Return df) = Return (Bars []).
Proof. intros E. unfold try_body. cbn [bind]. rewrite E. reflexivity. Qed.

Lemma size_two (row : Row) (k1 k2 : string) :
  k1 <> k2 -> is_Some (row !! k1) -> is_Some (row !! k2) -> (2 <= size row)%nat.
Proof.
  intros NE [v1 E1] [v2 E2].
  rewrite <- (insert_id row k1 v1 E1), <- insert_delete_eq.
  rewrite map_size_insert_None by apply lookup_delete_eq.
  assert (size (delete k1 row) <> 0%nat); [|lia].
  intros Z. apply map_size_empty_iff in Z.
  assert (L : delete k1 row !! k2 = Some v2) by (rewrite lookup_delete_ne; auto).
  rewrite Z, lookup_empty in L. discriminate.
Qed.

(** A table whose first row converts has a column besides the index. *)
Lemma empty_convertible (row : Row) (rest : DataFrame) (bar : Bar) :
  row_to_bar row = Return bar -> empty (row :: rest) = false.
Proof.
  intros R. apply row_to_bar_spec in R.
  destruct R as (d & c_open & ? & ? & ? & ? & Ed & _ & Eo & _).
  cbn [empty]. apply Nat.leb_gt.
  assert (2 <= size row)%nat; [|lia].
  apply (size_two row "Date" "Open"); [discriminate | eauto | eauto].
Qed.

(** With four or more entries in [sys.argv] the script takes the fetch
    path with entries 1, 2 and 3. *)
Lemma main_fetch (float_repr : float -> string)
  (script ticker start end_ : string) (extra : list string) :
  main float_repr (script :: ticker :: start :: end_ :: extra) =
  pbind (fetch_data ticker start end_)
    (fun data =>
       match data with
       | Return data =>
           Ret (mkProcess (print (dumps float_repr (result_json data))) 0)
       | Raise e => Ret (mkProcess EmptyString (uncaught_status e))
       end).
Proof.
  unfold main.
  destruct (Z.ltb_spec (Z.of_nat (length (script :: ticker :: start :: end_ :: extra))) 4)
    as [L|_]; [cbn [length] in L; lia | reflexivity].
Qed.

Lemma main_usage (float_repr : float -> string) (argv : list string) :
  (length argv < 4)%nat ->
  main float_repr argv = Ret (mkProcess (print (error_object (quoted usage))) 1).
Proof.
  intros L. unfold main.
  destruct (Z.ltb_spec (Z.of_nat (length argv)) 4) as [_|G]; [reflexivity | lia].
Qed.

Lemma run_pbind {A B} (provider : Query -> outcome DataFrame)
  (p : prog A) (f : A -> prog B) :
  run provider (pbind p f) = run provider (f (run provider p)).
Proof.
  induction p as [a|q k IH]; [reflexivity|]. cbn. apply IH.
Qed.

Lemma run_main_fetch (float_repr : float -> string)
  (provider : Query -> outcome DataFrame)
  (script ticker start end_ : string) (extra : list string) :
  run provider (main float_repr (script :: ticker :: start :: end_ :: extra)) =
  match run provider (fetch_data ticker start end_) with
  | Return data => mkProcess (print (dumps float_repr (result_json data))) 0
  | Raise e => mkProcess EmptyString (uncaught_status e)
  end.
Proof.
  rewrite main_fetch, run_pbind.
  destruct (run provider (fetch_data ticker start end_)); reflexivity.
Qed.

(* ===================================================================== *)
(** * Properties of [fetch_data] and of the entry point *)
(* ===================================================================== *)

(** ** Failure policy *)

(** C1, as stated, fails: the end-date adjustment runs before the [try]
    block, so what it raises leaves [fetch_data].  The last representable
    day makes [timedelta] overflow, and a text that is not a calendar date
    makes [strptime] raise; in both cases the provider is never asked.
    Inside the [try] block, an exception that is not an instance of
    [Exception], such as the [SystemExit] of a [sys.exit] in the provider,
    is not handled either. *)
Lemma fetch_data_propagates_date_errors :
  fetch_data "BBCA" "2024-01-02" "9999-12-31"
    = Ret (Raise (OverflowError "date value out of range")) /\
  (exists msg, fetch_data "BBCA" "2024-01-02" "2024-02-30"
               = Ret (Raise (ValueError msg))) /\
  raised (run (always (Return [])) (fetch_data "BBCA" "2024-01-02" "9999-12-31"))
    = true /\
  run (always (Raise (SystemExit 2))) (fetch_data "BBCA" "2024-01-02" "2024-01-05")
    = Raise (SystemExit 2).
Proof.
  split; [reflexivity|]. split; [|split; reflexivity].
  eexists. vm_compute. reflexivity.
Qed.

(** C1 (amended): when the end date is a text [strptime] accepts as a date
    before 9999-12-31, every instance of [Exception] raised during retrieval
    (the provider raises it) is turned into the error descriptor carrying
    [str(e)]; so is every exception raised during row transformation (a row
    of a table that is not [df.empty] fails to convert, after any number of
    rows that did convert), all of which are instances of [Exception]; and
    [fetch_data] returns instead of raising unless the provider raises an
    exception that is not an instance of [Exception]. *)
Theorem fetch_data_catches_retrieval_and_transformation
  (provider : Query -> outcome DataFrame)
  (ticker start_date end_date : string) (d : datetime) :
  strptime end_date = Return d -> d <> max_date ->
  (forall e,
      provider (mkQuery (ticker +:+ ".JK") start_date (strftime (next_day d)))
        = Raise e ->
      exc_is_Exception e = true ->
      run provider (fetch_data ticker start_date end_date)
        = Return (ErrorDescriptor (exc_str e))) /\
  (forall pre row post bars e,
      provider (mkQuery (ticker +:+ ".JK") start_date (strftime (next_day d)))
        = Return (pre ++ row :: post)%list ->
      empty (pre ++ row :: post) = false ->
      Forall2 (fun row bar => row_to_bar row = Return bar) pre bars ->
      row_to_bar row = Raise e ->
      exc_is_Exception e = true /\
      run provider (fetch_data ticker start_date end_date)
        = Return (ErrorDescriptor (exc_str e))) /\
  ((forall e,
       provider (mkQuery (ticker +:+ ".JK") start_date (strftime (next_day d)))
         = Raise e ->
       exc_is_Exception e = true) ->
   raised (run provider (fetch_data ticker start_date end_date)) = false).
Proof.
  intros P N. rewrite (run_fetch_data_parsed provider _ _ _ d P N).
  split; [|split].
  - intros e -> C. cbn. rewrite C. reflexivity.
  - intros pre row post bars e -> NE F R.
    pose proof (row_to_bar_Raise row e R) as C. split; [exact C|].
    rewrite try_body_rows by assumption.
    assert (L : iterrows_loop (pre ++ row :: post) [] = Raise e).
    { apply iterrows_loop_Raise. exists pre, row, post, bars. auto. }
    rewrite L. cbn. rewrite C. reflexivity.
  - intros H. apply except_Exception_returns. intros e T.
    apply try_body_Raise in T. destruct T as [T|T]; [apply (H e T) | exact T].
Qed.

(** A provider that is down, and a table whose second row has a NaN
    volume: both end as error descriptors. *)
Lemma fetch_data_catches_retrieval_and_transformation_witness :
  strptime "2024-01-05" = Return (mkDate 2024 1 5) /\
  mkDate 2024 1 5 <> max_date /\
  run (always (Raise (mkExc "ConnectionError" "Max retries exceeded")))
      (fetch_data "BBCA" "2024-01-02" "2024-01-05")
    = Return (ErrorDescriptor "Max retries exceeded") /\
  run (always (Return broken_table)) (fetch_data "BBCA" "2024-01-02" "2024-01-05")
    = Return (ErrorDescriptor "cannot convert float NaN to integer").
Proof.
  split; [reflexivity|]. split; [discriminate|]. split.
  - pose proof (fetch_data_catches_retrieval_and_transformation
                  (always (Raise (mkExc "ConnectionError" "Max retries exceeded")))
                  "BBCA" "2024-01-02" "2024-01-05" (mkDate 2024 1 5)
                  eq_refl ltac:(discriminate)) as H.
    destruct H as (H & _ & _).
    apply (H (mkExc "ConnectionError" "Max retries exceeded")); reflexivity.
  - pose proof (fetch_data_catches_retrieval_and_transformation
                  (always (Return broken_table))
                  "BBCA" "2024-01-02" "2024-01-05" (mkDate 2024 1 5)
                  eq_refl ltac:(discriminate)) as H.
    destruct H as (_ & H & _).
    apply (H [sample_row (mkDate 2024 1 2) (PyFloat 9000) (PyFloat 9050)
                (PyFloat 8950) (PyFloat 9025) (PyInt 1200)]
             (sample_row (mkDate 2024 1 3) (PyFloat 9100) (PyFloat 9175.5)
                (PyFloat 9050) (PyFloat 9125.25) (PyFloat nan))
             [] [mkBar "2024-01-02" 9000 9050 8950 9025 1200]
             (ValueError "cannot convert float NaN to integer")).
    + reflexivity.
    + reflexivity.
    + constructor; [vm_compute; reflexivity | constructor].
    + vm_compute; reflexivity.
Defined.

(** ** End-date inclusivity *)

(** C2, as stated, fails on dates in [YYYY-MM-DD] form: for the end date
    9999-12-31 the day after is not a [datetime], the addition raises
    [OverflowError], and no query is sent; and for an end date before the
    year 1000 the end boundary is written by [strftime] without the leading
    zeros of the year, so it is not the next day in [YYYY-MM-DD] form. *)
Lemma end_date_9999_12_31_not_queried :
  valid_date (mkDate 9999 12 31) = true /\
  strftime (mkDate 9999 12 31) = "9999-12-31" /\
  is_ymd_text "9999-12-31" = true /\
  queries (always (Return [])) (fetch_data "BBCA" "9999-12-31" "9999-12-31") = [] /\
  fetch_data "BBCA" "9999-12-31" "9999-12-31"
    = Ret (Raise (OverflowError "date value out of range")) /\
  valid_date (mkDate 99 1 1) = true /\
  ymd_text (mkDate 99 1 1) = "0099-01-01" /\
  queries (always (Return [])) (fetch_data "BBCA" "0099-01-01" "0099-01-01")
    = [mkQuery "BBCA.JK" "0099-01-01" "99-01-02"] /\
  is_ymd_text "99-01-02" = false.
Proof. repeat split; vm_compute; reflexivity. Qed.

(** C2 (amended): for every calendar date [d] of the years 1000 to 9999
    other than 9999-12-31, with the end date given in [YYYY-MM-DD] form,
    [fetch_data] sends the provider one query, for the ticker with [.JK],
    the start date as given and the end boundary [d] plus one calendar day,
    again in [YYYY-MM-DD] form, whether or not the start date equals the end
    date. *)
Theorem fetch_data_queries_end_plus_one_day
  (ticker start_date : string) (d : datetime) :
  valid_date d = true -> 1000 <= year d -> d <> max_date ->
  valid_date (next_day d) = true /\
  toordinal (next_day d) = toordinal d + 1 /\
  is_ymd_text (ymd_text d) = true /\
  is_ymd_text (ymd_text (next_day d)) = true /\
  fetch_data ticker start_date (ymd_text d) =
  History (mkQuery (ticker +:+ ".JK") start_date (ymd_text (next_day d)))
    (fun answer => Ret (except_Exception (try_body answer))).
Proof.
  intros V Y N.
  pose proof (next_day_valid d V N) as V'.
  repeat split.
  - exact V'.
  - now apply toordinal_next_day.
  - apply is_ymd_text_ymd_text.
  - apply is_ymd_text_ymd_text.
  - apply fetch_data_query. rewrite adjust_end_date_unified.
    rewrite (end_date_plus_one_day_ok (ymd_text d) d);
      [| now apply strptime_ymd_text | assumption].
    rewrite strftime_ymd_text; [reflexivity|].
    apply valid_date_spec in V'. destruct V' as (Hy & _).
    assert (year d <= year (next_day d)); [|lia].
    unfold next_day.
    destruct (day d <? days_in_month (year d) (month d)); cbn; [lia|].
    destruct (month d <? 12); cbn; lia.
Qed.

(** The two ranges of the specification: one day, and a true range. *)
Lemma fetch_data_queries_end_plus_one_day_witness :
  valid_date (mkDate 2024 1 2) = true /\
  valid_date (mkDate 2024 1 5) = true /\
  queries (always (Return [])) (fetch_data "BBCA" "2024-01-02" "2024-01-02")
    = [mkQuery "BBCA.JK" "2024-01-02" "2024-01-03"] /\
  queries (always (Return [])) (fetch_data "BBCA" "2024-01-02" "2024-01-05")
    = [mkQuery "BBCA.JK" "2024-01-02" "2024-01-06"].
Proof.
  split; [reflexivity|]. split; [reflexivity|]. split.
  - change "2024-01-02" with (ymd_text (mkDate 2024 1 2)) at 2.
    rewrite (proj2 (proj2 (proj2 (proj2 (fetch_data_queries_end_plus_one_day
               "BBCA" "2024-01-02" (mkDate 2024 1 2) eq_refl
               ltac:(cbn; lia) ltac:(discriminate)))))).
    reflexivity.
  - change "2024-01-05" with (ymd_text (mkDate 2024 1 5)).
    rewrite (proj2 (proj2 (proj2 (proj2 (fetch_data_queries_end_plus_one_day
               "BBCA" "2024-01-02" (mkDate 2024 1 5) eq_refl
               ltac:(cbn; lia) ltac:(discriminate)))))).
    reflexivity.
Defined.

(** ** Command-line entry point *)




(** ** Symbol normalisation *)

(** C4: whatever the ticker text, the symbol of the query is the ticker
    followed by [.JK]: every query [fetch_data] issues carries that symbol,
    and a query is issued whenever the end-date adjustment returns. *)
Theorem fetch_data_symbol (ticker start_date end_date : string) :
  (forall q k, fetch_data ticker start_date end_date = History q k ->
               q_symbol q = ticker +:+ ".JK") /\
  (forall end', adjust_end_date start_date end_date = Return end' ->
     exists k, fetch_data ticker start_date end_date
               = History (mkQuery (ticker +:+ ".JK") start_date end') k).
Proof.
  split.
  - intros q k. unfold fetch_data.
    destruct (adjust_end_date start_date end_date); [|discriminate].
    intros [= <- _]. reflexivity.
  - intros end' A. eexists. apply fetch_data_query, A.
Qed.

(** [BBCA] is queried as [BBCA.JK]. *)
Lemma fetch_data_symbol_witness :
  adjust_end_date "2024-01-02" "2024-01-05" = Return "2024-01-06" /\
  exists k, fetch_data "BBCA" "2024-01-02" "2024-01-05"
            = History (mkQuery "BBCA.JK" "2024-01-02" "2024-01-06") k.
Proof.
  split; [reflexivity|].
  apply (proj2 (fetch_data_symbol "BBCA" "2024-01-02" "2024-01-05")
           "2024-01-06" eq_refl).
Defined.

(** ** Empty results *)

(** C5: when the provider answers the query with a table without rows,
    [fetch_data] returns the empty list, which is not an error
    descriptor. *)
Theorem fetch_data_empty_table
  (provider : Query -> outcome DataFrame)
  (ticker start_date end_date end' : string) :
  adjust_end_date start_date end_date = Return end' ->
  provider (mkQuery (ticker +:+ ".JK") start_date end') = Return [] ->
  run provider (fetch_data ticker start_date end_date) = Return (Bars []) /\
  (forall msg, run provider (fetch_data ticker start_date end_date)
               <> Return (ErrorDescriptor msg)).
Proof.
  intros A E. rewrite (run_fetch_data provider _ _ _ _ A), E.
  split; [reflexivity | discriminate].
Qed.

Lemma fetch_data_empty_table_witness :
  adjust_end_date "2024-01-01" "2024-01-01" = Return "2024-01-02" /\
  run (always (Return [])) (fetch_data "BBCA" "2024-01-01" "2024-01-01")
    = Return (Bars []).
Proof.
  split; [reflexivity|].
  apply (fetch_data_empty_table (always (Return []))
           "BBCA" "2024-01-01" "2024-01-01" "2024-01-02");
    reflexivity.
Defined.

(** ** Row transformation *)

Lemma run_fetch_data_Bars (provider : Query -> outcome DataFrame)
  (ticker start_date end_date end' : string) (df : DataFrame) (results : list Bar) :
  adjust_end_date start_date end_date = Return end' ->
  provider (mkQuery (ticker +:+ ".JK") start_date end') = Return df ->
  empty df = false ->
  run provider (fetch_data ticker start_date end_date) = Return (Bars results) <->
  Forall2 (fun row bar => row_to_bar row = Return bar) df results.
Proof.
  intros A E NE. rewrite (run_fetch_data provider _ _ _ _ A), E.
  rewrite try_body_rows by assumption. split.
  - destruct (iterrows_loop df []) as [res|e] eqn:L; cbn.
    + intros [= ->]. apply iterrows_loop_Return in L.
      destruct L as (bars & F & ->). exact F.
    + destruct (exc_is_Exception e); discriminate.
  - intros F.
    assert (L : iterrows_loop df [] = Return results).
    { apply iterrows_loop_Return. exists results. auto. }
    rewrite L. reflexivity.
Qed.

(** The date text of a bar is what [strftime] makes of the row's
    [Timestamp]: from the year 1000 on it has the shape [YYYY-MM-DD] and
    reads back as that date. *)
Lemma bar_of_row_date (row : Row) (bar : Bar) (d : datetime) :
  bar_of_row row bar -> row !! "Date" = Some (PyTimestamp d) ->
  date bar = strftime d /\
  (1000 <= year d <= 9999 -> is_ymd_text (date bar) = true) /\
  (valid_date d = true -> 1000 <= year d -> strptime (date bar) = Return d).
Proof.
  intros (d' & c_open & c_high & c_low & c_close & c_volume & Hd & -> & _) E.
  rewrite Hd in E. injection E as ->.
  split; [reflexivity|]. split.
  - intros Y. rewrite strftime_ymd_text by assumption. apply is_ymd_text_ymd_text.
  - intros V Y. pose proof V as V'. apply valid_date_spec in V'.
    rewrite strftime_ymd_text by lia. now apply strptime_ymd_text.
Qed.

Lemma bar_of_row_cells_kept (row : Row) (bar : Bar) :
  bar_of_row row bar -> cells_kept row bar.
Proof.
  intros (d & c_open & c_high & c_low & c_close & c_volume &
          _ & _ & Eo & Ho & Eh & Hh & El & Hl & Ec & Hc & Ev & Hv).
  unfold cells_kept. repeat split; intros x E.
  - rewrite Eo in E. injection E as ->. cbn in Ho. congruence.
  - rewrite Eh in E. injection E as ->. cbn in Hh. congruence.
  - rewrite El in E. injection E as ->. cbn in Hl. congruence.
  - rewrite Ec in E. injection E as ->. cbn in Hc. congruence.
  - rewrite Ev in E. injection E as ->. cbn in Hv. congruence.
Qed.

(** [int()] of a float drops the fractional part. *)
Lemma py_int_truncates (f : float) (n : Z) :
  py_int (PyFloat f) = Return n -> truncation_of f n.
Proof.
  unfold py_int, truncation_of.
  destruct (Prim2SF f) as [z| | |s m e]; try discriminate.
  - intros [= <-]. reflexivity.
  - destruct (Z.leb_spec 0 e) as [L|L]; intros [= <-].
    + rewrite (Z.max_l 0 (- e)), (Z.max_r 0 e) by lia.
      assert (0 < 2 ^ e) by (apply Z.pow_pos_nonneg; lia).
      destruct s; (split; [nia|]); rewrite ?Z.abs_opp, Z.abs_eq by nia; nia.
    + rewrite (Z.max_r 0 (- e)), (Z.max_l 0 e) by lia.
      assert (P : 0 < 2 ^ (- e)) by (apply Z.pow_pos_nonneg; lia).
      pose proof (Z.div_mod (Z.pos m) (2 ^ (- e)) ltac:(lia)) as DM.
      pose proof (Z.mod_pos_bound (Z.pos m) (2 ^ (- e)) P) as MB.
      assert (Q : 0 <= Z.pos m / 2 ^ (- e)) by (apply Z.div_pos; lia).
      destruct s; (split; [lia|]); rewrite ?Z.abs_opp, Z.abs_eq by lia; nia.
Qed.

Lemma bar_of_row_volume_truncated (row : Row) (bar : Bar) :
  bar_of_row row bar -> volume_truncated row bar.
Proof.
  intros (d & c_open & c_high & c_low & c_close & c_volume &
          _ & _ & _ & _ & _ & _ & _ & _ & _ & _ & Ev & Hv) f E.
  rewrite Ev in E. injection E as ->. now apply py_int_truncates.
Qed.

(** C6, as stated, fails for the date: [strftime] leaves the year
    unpadded, so a row dated before the year 1000 gives a bar whose date is
    not a [YYYY-MM-DD] string. *)
Lemma bar_date_before_year_1000 :
  run (always (Return year_999_table)) (fetch_data "BBCA" "0999-01-05" "0999-01-05")
    = Return (Bars [mkBar "999-01-05" 9000 9050 8950 9025 1200]) /\
  is_ymd_text "999-01-05" = false.
Proof. split; vm_compute; reflexivity. Qed.

(** C6 (amended): when the provider answers with a table that is not
    [df.empty], [fetch_data] returns bars exactly when each bar comes from
    its row field by field: the date is the row's [Timestamp] formatted by
    [strftime], which from the year 1000 on is a [YYYY-MM-DD] string; open,
    high, low and close are [float()] of the row's cells (binary64 values);
    the volume is [int()] of the row's cell (an integer).  Nothing else is
    applied: a float price and an int volume are passed on as they are, and
    a float volume is truncated towards zero, without rounding or range
    check. *)
Theorem fetch_data_row_transformation
  (provider : Query -> outcome DataFrame)
  (ticker start_date end_date end' : string) (df : DataFrame) (results : list Bar) :
  adjust_end_date start_date end_date = Return end' ->
  provider (mkQuery (ticker +:+ ".JK") start_date end') = Return df ->
  empty df = false ->
  (run provider (fetch_data ticker start_date end_date) = Return (Bars results) <->
   Forall2 bar_of_row df results) /\
  (run provider (fetch_data ticker start_date end_date) = Return (Bars results) ->
   Forall2 date_in_ymd_form df results /\
   Forall2 cells_kept df results /\
   Forall2 volume_truncated df results).
Proof.
  intros A E NE.
  assert (EQ : run provider (fetch_data ticker start_date end_date)
               = Return (Bars results) <-> Forall2 bar_of_row df results).
  { rewrite (run_fetch_data_Bars provider _ _ _ _ _ _ A E NE).
    split; intros F; (eapply Forall2_impl; [exact F|]);
      intros row bar; apply row_to_bar_spec. }
  split; [exact EQ|].
  intros R. apply EQ in R. clear EQ E NE. repeat split.
  - eapply Forall2_impl; [exact R|]. intros row bar H d Ed Y.
    now apply (bar_of_row_date row bar d H Ed).
  - eapply Forall2_impl; [exact R|]. apply bar_of_row_cells_kept.
  - eapply Forall2_impl; [exact R|]. apply bar_of_row_volume_truncated.
Qed.

(** A table with float volumes 1200.75 and -7.5 and an int price: the
    volumes arrive as 1200 and -7. *)
Lemma fetch_data_row_transformation_witness :
  adjust_end_date "2024-01-02" "2024-01-05" = Return "2024-01-06" /\
  empty float_volume_table = false /\
  run (always (Return float_volume_table)) (fetch_data "BBCA" "2024-01-02" "2024-01-05")
    = Return (Bars float_volume_bars) /\
  Forall2 bar_of_row float_volume_table float_volume_bars /\
  Forall2 date_in_ymd_form float_volume_table float_volume_bars /\
  Forall2 cells_kept float_volume_table float_volume_bars /\
  Forall2 volume_truncated float_volume_table float_volume_bars.
Proof.
  assert (R : run (always (Return float_volume_table))
                  (fetch_data "BBCA" "2024-01-02" "2024-01-05")
              = Return (Bars float_volume_bars)) by (vm_compute; reflexivity).
  destruct (fetch_data_row_transformation (always (Return float_volume_table))
              "BBCA" "2024-01-02" "2024-01-05" "2024-01-06"
              float_volume_table float_volume_bars eq_refl eq_refl eq_refl)
    as (EQ & K).
  split; [reflexivity|]. split; [reflexivity|]. split; [exact R|].
  split; [exact (proj1 EQ R)|]. exact (K R).
Defined.

(** ** Retrieval errors at the process level *)

(** C7, as stated, fails: the message of the caught exception is printed as
    it is, and an exception may have an empty message (an [assert] without
    text, or [Exception()]); the printed string is then empty.  And an
    exception that is not an instance of [Exception], such as the
    [SystemExit] of a [sys.exit(2)] in the provider, is not caught: nothing
    is printed and the status is 2. *)
Lemma main_prints_empty_error_message :
  run (always (Raise (mkExc "AssertionError" EmptyString)))
      (main no_float_repr (argv_of "BBCA" "2024-01-02" "2024-01-05"))
    = mkProcess (print (error_object (quoted EmptyString))) 0 /\
  ~ (exists s, s <> EmptyString /\
       stdout (run (always (Raise (mkExc "AssertionError" EmptyString)))
                   (main no_float_repr (argv_of "BBCA" "2024-01-02" "2024-01-05")))
         = print (error_object (encode_string s))) /\
  run (always (Raise (SystemExit 2)))
      (main no_float_repr (argv_of "BBCA" "2024-01-02" "2024-01-05"))
    = mkProcess EmptyString 2.
Proof.
  assert (E : run (always (Raise (mkExc "AssertionError" EmptyString)))
                  (main no_float_repr (argv_of "BBCA" "2024-01-02" "2024-01-05"))
              = mkProcess (print (error_object (encode_string EmptyString))) 0)
    by (vm_compute; reflexivity).
  split; [exact E|]. split; [|vm_compute; reflexivity].
  rewrite E. cbn [stdout]. intros (s & NE & H).
  apply print_error_object_inj, encode_string_inj in H. congruence.
Qed.

(** C7 (amended): whenever the provider call raises an exception [e] that
    is an instance of [Exception], the process exits with status 0 and
    standard output is the JSON object whose only member, ["error"], is a
    JSON string literal denoting [str(e)], which may be empty. *)
Theorem main_provider_raises
  (float_repr : float -> string) (provider : Query -> outcome DataFrame)
  (script ticker start end_ end' : string) (extra : list string) (e : PyExc) :
  adjust_end_date start end_ = Return end' ->
  provider (mkQuery (ticker +:+ ".JK") start end') = Raise e ->
  exc_is_Exception e = true ->
  exit_code (run provider (main float_repr (script :: ticker :: start :: end_ :: extra)))
    = 0 /\
  stdout (run provider (main float_repr (script :: ticker :: start :: end_ :: extra)))
    = print (error_object (encode_string (exc_str e))) /\
  read_string (encode_string (exc_str e)) = Some (exc_str e).
Proof.
  intros A E C.
  rewrite run_main_fetch, (run_fetch_data provider _ _ _ _ A), E.
  cbn. rewrite C. cbn. repeat split. apply read_string_encode_string.
Qed.

Lemma main_provider_raises_witness :
  adjust_end_date "2024-01-02" "2024-01-05" = Return "2024-01-06" /\
  exit_code (run (always (Raise (mkExc "ValueError" "No data found")))
                 (main no_float_repr (argv_of "BBCA" "2024-01-02" "2024-01-05")))
    = 0 /\
  stdout (run (always (Raise (mkExc "ValueError" "No data found")))
              (main no_float_repr (argv_of "BBCA" "2024-01-02" "2024-01-05")))
    = print (error_object (quoted "No data found")) /\
  read_string (quoted "No data found") = Some "No data found".
Proof.
  split; [reflexivity|].
  apply (main_provider_raises no_float_repr
           (always (Raise (mkExc "ValueError" "No data found")))
           "fetch_yfinance.py" "BBCA" "2024-01-02" "2024-01-05" "2024-01-06" []
           (mkExc "ValueError" "No data found"));
    reflexivity.
Defined.

(** ** The duplicated branch *)



(** ** Extra arguments *)

(** C9: with more than three positional arguments the program behaves as
    with the first three alone: the script name and the arguments after the
    third change neither the query, nor the output, nor the exit status. *)
Theorem main_ignores_extra_arguments
  (float_repr : float -> string) (provider : Query -> outcome DataFrame)
  (script script' ticker start end_ : string) (extra extra' : list string) :
  main float_repr (script :: ticker :: start :: end_ :: extra)
    = main float_repr (script' :: ticker :: start :: end_ :: extra') /\
  run provider (main float_repr (script :: ticker :: start :: end_ :: extra))
    = run provider (main float_repr [script; ticker; start; end_]).
Proof.
  rewrite !main_fetch. split; reflexivity.
Qed.

(** ** Order and number of the bars *)



(* ===================================================================== *)
(** * Further properties of the script *)
(* ===================================================================== *)

Lemma queries_pbind {A B} (provider : Query -> outcome DataFrame)
  (p : prog A) (f : A -> prog B) :
  queries provider (pbind p f) =
  (queries provider p ++ queries provider (f (run provider p)))%list.
Proof.
  induction p as [a|q k IH]; [reflexivity|]. cbn. now rewrite IH.
Qed.

Lemma adjust_end_date_Return (start_date end_date end' : string) :
  adjust_end_date start_date end_date = Return end' <->
  exists d, strptime end_date = Return d /\ d <> max_date /\
            end' = strftime (next_day d).
Proof.
  rewrite adjust_end_date_unified. apply end_date_plus_one_day_Return.
Qed.

Lemma adjust_end_date_raised (start_date end_date : string) :
  raised (adjust_end_date start_date end_date) = true <->
  ~ (exists d, strptime end_date = Return d /\ d <> max_date).
Proof.
  destruct (adjust_end_date start_date end_date) as [end'|e] eqn:A; cbn.
  - apply adjust_end_date_Return in A. destruct A as (d & P & N & _).
    split; [discriminate|]. intros H. exfalso. apply H. eauto.
  - split; [|reflexivity]. intros _ (d & P & N).
    assert (A' : adjust_end_date start_date end_date = Return (strftime (next_day d))).
    { apply adjust_end_date_Return. eauto. }
    congruence.
Qed.

Lemma queries_fetch_data (provider : Query -> outcome DataFrame)
  (ticker start_date end_date : string) :
  queries provider (fetch_data ticker start_date end_date) =
  match adjust_end_date start_date end_date with
  | Return end' => [mkQuery (ticker +:+ ".JK") start_date end']
  | Raise _ => []
  end.
Proof.
  unfold fetch_data. destruct (adjust_end_date start_date end_date); reflexivity.
Qed.

(** X1: a run sends the provider at most one query, whatever the provider
    answers, so a failed retrieval is never retried; with fewer than three
    arguments, or with an end date the adjustment rejects, no query is sent
    at all. *)
Theorem main_queries_at_most_once
  (float_repr : float -> string) (provider : Query -> outcome DataFrame)
  (argv : list string) :
  queries provider (main float_repr argv) = expected_queries argv /\
  (length (queries provider (main float_repr argv)) <= 1)%nat.
Proof.
  assert (E : queries provider (main float_repr argv) = expected_queries argv).
  { destruct argv as [|script [|ticker [|start [|end_ extra]]]];
      try (rewrite main_usage by (cbn; lia); reflexivity).
    rewrite main_fetch, queries_pbind, queries_fetch_data.
    unfold expected_queries.
    destruct (run provider (fetch_data ticker start end_));
      cbn [queries]; rewrite app_nil_r; reflexivity. }
  split; [exact E|]. rewrite E. unfold expected_queries.
  destruct argv as [|script [|ticker [|start [|end_ extra]]]]; cbn; try lia.
  destruct (adjust_end_date start end_); cbn; lia.
Qed.

(** X2: [fetch_data] raises in two cases and no other: the end date is not
    a text that [strptime] accepts as a date before 9999-12-31, and then the
    provider has not been asked; or the provider raises an exception that is
    not an instance of [Exception].  The ticker and the start date have no
    part in it. *)
Theorem fetch_data_raises_iff
  (provider : Query -> outcome DataFrame) (ticker start_date end_date : string) :
  (raised (run provider (fetch_data ticker start_date end_date)) = true <->
   ~ (exists d, strptime end_date = Return d /\ d <> max_date) \/
   (exists end' e,
       adjust_end_date start_date end_date = Return end' /\
       provider (mkQuery (ticker +:+ ".JK") start_date end') = Raise e /\
       exc_is_Exception e = false)) /\
  (~ (exists d, strptime end_date = Return d /\ d <> max_date) ->
   queries provider (fetch_data ticker start_date end_date) = []).
Proof.
  rewrite <- (adjust_end_date_raised start_date end_date).
  rewrite queries_fetch_data. unfold fetch_data, yf_ticker.
  destruct (adjust_end_date start_date end_date) as [end'|e] eqn:A; cbn [run raised].
  - split; [|discriminate]. split.
    + intros R. right.
      destruct (except_Exception _) as [r|e] eqn:X; [discriminate|].
      apply except_Exception_Raise in X. destruct X as (T & C).
      apply try_body_Raise in T. destruct T as [T|T]; [|congruence].
      exists end', e. auto.
    + intros [F|(end2 & e & [= <-] & E & C)]; [discriminate|].
      rewrite E. cbn. rewrite C. reflexivity.
  - split; [|reflexivity]. split; [left; reflexivity | reflexivity].
Qed.

Lemma fetch_data_raises_iff_witness :
  raised (run (always (Return sample_table))
              (fetch_data "BBCA" "2024-01-02" "2024-13-01")) = true /\
  queries (always (Return sample_table))
          (fetch_data "BBCA" "2024-01-02" "2024-13-01") = [] /\
  raised (run (always (Raise (SystemExit 2)))
              (fetch_data "BBCA" "2024-01-02" "2024-01-05")) = true.
Proof.
  assert (N : ~ (exists d, strptime "2024-13-01" = Return d /\ d <> max_date)).
  { intros (d & P & _). vm_compute in P. discriminate. }
  split; [|split].
  - apply (proj1 (fetch_data_raises_iff (always (Return sample_table))
                    "BBCA" "2024-01-02" "2024-13-01")).
    left. exact N.
  - apply (proj2 (fetch_data_raises_iff (always (Return sample_table))
                    "BBCA" "2024-01-02" "2024-13-01") N).
  - apply (proj1 (fetch_data_raises_iff (always (Raise (SystemExit 2)))
                    "BBCA" "2024-01-02" "2024-01-05")).
    right. exists "2024-01-06", (SystemExit 2). repeat split.
Defined.



Lemma all_chars_app (p : ascii -> bool) (a b : string) :
  all_chars p (a +:+ b) = all_chars p a && all_chars p b.
Proof.
  induction a as [|c a IH]; [reflexivity|].
  rewrite app_String. cbn [all_chars]. rewrite IH. apply andb_assoc.
Qed.

Lemma escape_char_printable (c : ascii) :
  all_chars printable_ascii (escape_char c) = true.
Proof. destruct c as [[] [] [] [] [] [] [] []]; reflexivity. Qed.

Lemma escape_printable (s : string) : all_chars printable_ascii (escape s) = true.
Proof.
  induction s as [|c s IH]; [reflexivity|].
  cbn [escape]. now rewrite all_chars_app, escape_char_printable, IH.
Qed.

Lemma all_chars_contains (p : ascii -> bool) (c : ascii) (s : string) :
  all_chars p s = true -> p c = false -> contains c s = false.
Proof.
  intros A N. induction s as [|a s IH]; [reflexivity|].
  cbn in *. apply andb_true_iff in A. destruct A as (Pa & A).
  rewrite (IH A), orb_false_r.
  destruct (Ascii.eqb_spec a c) as [->|]; [congruence | reflexivity].
Qed.

(** X4: the two kinds of result are told apart by the first character of
    the output: a list of bars, even an empty one, is printed as a text that
    starts with a square bracket, an error descriptor as one that starts
    with a brace, so no successful output equals an error output. *)
Theorem output_tells_success_from_error
  (float_repr : float -> string) (results : list Bar) (msg : string) :
  head_char (print (dumps float_repr (result_json (Bars results)))) = Some "["%char /\
  head_char (print (dumps float_repr (result_json (ErrorDescriptor msg))))
    = Some "{"%char /\
  print (dumps float_repr (result_json (Bars results)))
    <> print (dumps float_repr (result_json (ErrorDescriptor msg))).
Proof.
  assert (B : head_char (print (dumps float_repr (result_json (Bars results))))
              = Some "["%char) by reflexivity.
  assert (D : head_char (print (dumps float_repr (result_json (ErrorDescriptor msg))))
              = Some "{"%char) by reflexivity.
  split; [exact B|]. split; [exact D|].
  intros E. rewrite E in B. rewrite B in D. discriminate.
Qed.

(** X5: whatever the message of the caught exception, the printed error
    descriptor is printable ASCII throughout: quotes, backslashes, control
    characters and characters beyond ASCII in the message are escaped, so
    the output is one line, ended by the newline [print] adds. *)
Theorem error_output_is_one_ascii_line (float_repr : float -> string) (msg : string) :
  all_chars printable_ascii (dumps float_repr (result_json (ErrorDescriptor msg)))
    = true /\
  contains "010" (dumps float_repr (result_json (ErrorDescriptor msg))) = false /\
  read_string (encode_string msg) = Some msg.
Proof.
  assert (A : all_chars printable_ascii
                (dumps float_repr (result_json (ErrorDescriptor msg))) = true).
  { change (dumps float_repr (result_json (ErrorDescriptor msg)))
      with ("{" +:+ quoted "error" +:+ ": " +:+ (String dquote (escape msg +:+ String dquote EmptyString)) +:+ "}").
    rewrite !all_chars_app. cbn [all_chars].
    rewrite all_chars_app, escape_printable. reflexivity. }
  split; [exact A|]. split.
  - apply (all_chars_contains printable_ascii); [exact A | reflexivity].
  - apply read_string_encode_string.
Qed.

(** X6: whenever the end-date adjustment returns, the end boundary is
    what [strftime] makes of the day after the date the end date was parsed
    to; for an end date from the year 1000 on it is in canonical
    [YYYY-MM-DD] form, even if the end date was given with a one-digit month
    or day, and it reads back as that next day. *)
Theorem adjust_end_date_canonical (start_date end_date end' : string) :
  adjust_end_date start_date end_date = Return end' ->
  exists d, strptime end_date = Return d /\
            end' = strftime (next_day d) /\
            toordinal (next_day d) = toordinal d + 1 /\
            (1000 <= year d ->
             is_ymd_text end' = true /\ strptime end' = Return (next_day d)).
Proof.
  intros A. apply adjust_end_date_Return in A. destruct A as (d & P & N & ->).
  pose proof (strptime_valid _ _ P) as V.
  pose proof (next_day_valid d V N) as V'.
  exists d. split; [exact P|]. split; [reflexivity|].
  split; [now apply toordinal_next_day|].
  intros Y.
  assert (Y' : 1000 <= year (next_day d) <= 9999).
  { pose proof V' as W. apply valid_date_spec in W. destruct W as (Hy & _).
    assert (year d <= year (next_day d)); [|lia].
    unfold next_day.
    destruct (day d <? days_in_month (year d) (month d)); cbn; [lia|].
    destruct (month d <? 12); cbn; lia. }
  rewrite strftime_ymd_text by exact Y'.
  split; [apply is_ymd_text_ymd_text | now apply strptime_ymd_text].
Qed.

Lemma adjust_end_date_canonical_witness :
  adjust_end_date "2024-1-2" "2024-2-29" = Return "2024-03-01" /\
  is_ymd_text "2024-2-29" = false /\
  is_ymd_text "2024-03-01" = true /\
  strptime "2024-03-01" = Return (mkDate 2024 3 1).
Proof.
  assert (A : adjust_end_date "2024-1-2" "2024-2-29" = Return "2024-03-01")
    by reflexivity.
  destruct (adjust_end_date_canonical "2024-1-2" "2024-2-29" "2024-03-01" A)
    as (d & P & E & _ & C).
  assert (D : d = mkDate 2024 2 29) by (vm_compute in P; congruence).
  subst d. destruct C as (C1 & C2); [cbn; lia|].
  split; [exact A|]. split; [reflexivity|]. split; [exact C1 | exact C2].
Defined.

Lemma run_fetch_data_row_fails (provider : Query -> outcome DataFrame)
  (ticker start_date end_date end' : string)
  (pre post : DataFrame) (row : Row) (bars : list Bar) (e : PyExc) :
  adjust_end_date start_date end_date = Return end' ->
  provider (mkQuery (ticker +:+ ".JK") start_date end')
    = Return (pre ++ row :: post)%list ->
  empty (pre ++ row :: post) = false ->
  Forall2 (fun row bar => row_to_bar row = Return bar) pre bars ->
  row_to_bar row = Raise e ->
  run provider (fetch_data ticker start_date end_date)
    = Return (ErrorDescriptor (exc_str e)).
Proof.
  intros A E NE F R. rewrite (run_fetch_data provider _ _ _ _ A), E.
  rewrite try_body_rows by assumption.
  assert (L : iterrows_loop (pre ++ row :: post) [] = Raise e).
  { apply iterrows_loop_Raise. exists pre, row, post, bars. auto. }
  rewrite L. cbn. rewrite (row_to_bar_Raise row e R). reflexivity.
Qed.

Lemma row_to_bar_no_date (row : Row) :
  row !! "Date" = None -> row_to_bar row = Raise (KeyError "Date").
Proof. intros E. unfold row_to_bar, getitem. rewrite E. reflexivity. Qed.

Lemma Prim2SF_nan (f : float) : is_nan f = true -> Prim2SF f = S754_nan.
Proof. intros N. unfold Prim2SF. rewrite N. reflexivity. Qed.

Lemma row_to_bar_nan_volume (row : Row) (bar : Bar) (f : float) :
  row_to_bar row = Return bar -> is_nan f = true ->
  row_to_bar (<["Volume" := PyFloat f]> row)
    = Raise (ValueError "cannot convert float NaN to integer").
Proof.
  intros R N. apply row_to_bar_spec in R.
  destruct R as (d & c_open & c_high & c_low & c_close & c_volume &
                 Ed & _ & Eo & Ho & Eh & Hh & El & Hl & Ec & Hc & _).
  unfold row_to_bar, getitem.
  rewrite !lookup_insert_ne by discriminate.
  rewrite Ed, Eo, Eh, El, Ec. cbn [bind py_strftime].
  rewrite Ho, Hh, Hl, Hc. cbn [bind].
  rewrite lookup_insert_eq. cbn [bind py_int].
  rewrite (Prim2SF_nan f N). reflexivity.
Qed.

(** X7: a table that is not [df.empty] and has no [Date] label, because its
    index is called otherwise, gives the error descriptor whose message is
    the quoted label: the first row already fails on [row['Date']]. *)
Theorem fetch_data_missing_date_column
  (provider : Query -> outcome DataFrame)
  (ticker start_date end_date end' : string) (row : Row) (rest : DataFrame) :
  adjust_end_date start_date end_date = Return end' ->
  provider (mkQuery (ticker +:+ ".JK") start_date end') = Return (row :: rest) ->
  empty (row :: rest) = false ->
  row !! "Date" = None ->
  run provider (fetch_data ticker start_date end_date)
    = Return (ErrorDescriptor "'Date'").
Proof.
  intros A E NE D.
  apply (run_fetch_data_row_fails provider _ _ _ _ [] rest row []
           (KeyError "Date") A E NE); [constructor|].
  now apply row_to_bar_no_date.
Qed.

Lemma fetch_data_missing_date_column_witness :
  adjust_end_date "2024-01-02" "2024-01-05" = Return "2024-01-06" /\
  empty datetime_table = false /\
  Forall (fun row : Row => row !! "Date" = None) datetime_table /\
  run (always (Return datetime_table)) (fetch_data "BBCA" "2024-01-02" "2024-01-05")
    = Return (ErrorDescriptor "'Date'").
Proof.
  split; [reflexivity|]. split; [reflexivity|].
  split; [repeat constructor|].
  apply (fetch_data_missing_date_column (always (Return datetime_table))
           "BBCA" "2024-01-02" "2024-01-05" "2024-01-06"
           (datetime_row (mkDate 2024 1 2) (PyFloat 9000) (PyFloat 9050)
              (PyFloat 8950) (PyFloat 9025) (PyInt 1200))
           [datetime_row (mkDate 2024 1 3) (PyFloat 9100) (PyFloat 9175.5)
              (PyFloat 9050) (PyFloat 9125.25) (PyInt 1000)]);
    reflexivity.
Defined.

(** X8: a row that would convert, but whose volume is NaN, makes the whole
    call an error descriptor with [int()]'s message: the volume cast fails
    and no bar is returned, not even those of the rows before it. *)
Theorem fetch_data_nan_volume
  (provider : Query -> outcome DataFrame)
  (ticker start_date end_date end' : string)
  (pre post : DataFrame) (row : Row) (bars : list Bar) (bar : Bar) (f : float) :
  adjust_end_date start_date end_date = Return end' ->
  provider (mkQuery (ticker +:+ ".JK") start_date end')
    = Return (pre ++ <["Volume" := PyFloat f]> row :: post)%list ->
  Forall2 (fun row bar => row_to_bar row = Return bar) pre bars ->
  row_to_bar row = Return bar ->
  is_nan f = true ->
  run provider (fetch_data ticker start_date end_date)
    = Return (ErrorDescriptor "cannot convert float NaN to integer").
Proof.
  intros A E F R N.
  apply (run_fetch_data_row_fails provider _ _ _ _ pre post
           (<["Volume" := PyFloat f]> row) bars
           (ValueError "cannot convert float NaN to integer") A E); [|exact F|].
  - destruct F as [|first bar1 pre' bars' C F]; cbn [app].
    + apply row_to_bar_spec in R.
      destruct R as (d & c_open & ? & ? & ? & ? & Ed & _ & Eo & _).
      cbn [empty]. apply Nat.leb_gt.
      assert (2 <= size (<["Volume" := PyFloat f]> row))%nat; [|lia].
      apply (size_two _ "Date" "Open"); [discriminate | |];
        rewrite lookup_insert_ne by discriminate; eauto.
    + eapply empty_convertible, C.
  - eapply row_to_bar_nan_volume; eassumption.
Qed.

Lemma fetch_data_nan_volume_witness :
  adjust_end_date "2024-01-02" "2024-01-05" = Return "2024-01-06" /\
  run (always (Return (sample_table ++
                       [<["Volume" := PyFloat nan]> sample_next_row])%list))
      (fetch_data "BBCA" "2024-01-02" "2024-01-05")
    = Return (ErrorDescriptor "cannot convert float NaN to integer").
Proof.
  split; [reflexivity|].
  apply (fetch_data_nan_volume
           (always (Return (sample_table ++
                            [<["Volume" := PyFloat nan]> sample_next_row])%list))
           "BBCA" "2024-01-02" "2024-01-05" "2024-01-06"
           sample_table [] sample_next_row sample_bars
           (mkBar "2024-01-04" 9125.25 9200 9100 9150 800) nan).
  - reflexivity.
  - reflexivity.
  - repeat constructor.
  - vm_compute. reflexivity.
  - reflexivity.
Defined.

Lemma length_app_string (a b : string) :
  String.length (a +:+ b) = (String.length a + String.length b)%nat.
Proof.
  induction a as [|c a IH]; [reflexivity|].
  rewrite app_String. cbn [String.length]. now rewrite IH.
Qed.

Lemma app_inv_tail_string (a b c : string) : a +:+ c = b +:+ c -> a = b.
Proof.
  revert b. induction a as [|x a IH]; intros [|y b] E.
  - reflexivity.
  - apply (f_equal String.length) in E.
    rewrite app_Empty, app_String in E. cbn [String.length] in E.
    rewrite length_app_string in E. lia.
  - apply (f_equal String.length) in E.
    rewrite app_Empty, app_String in E. cbn [String.length] in E.
    rewrite length_app_string in E. lia.
  - rewrite !app_String in E. injection E as -> E. f_equal. auto.
Qed.

(** X9: the suffix is appended to the ticker as it is written, so two
    different tickers are never queried under the same symbol, and a query
    determines the ticker it was made for. *)
Theorem fetch_data_symbol_determines_ticker
  (ticker1 ticker2 start1 start2 end1 end2 : string) (q : Query)
  (k1 k2 : outcome DataFrame -> prog (outcome Result)) :
  fetch_data ticker1 start1 end1 = History q k1 ->
  fetch_data ticker2 start2 end2 = History q k2 ->
  ticker1 = ticker2 /\ start1 = start2.
Proof.
  unfold fetch_data.
  destruct (adjust_end_date start1 end1); [|discriminate].
  destruct (adjust_end_date start2 end2); [|discriminate].
  intros [= <- _] [= E S _]. split; [|congruence].
  unfold yf_ticker in E. symmetry. eapply app_inv_tail_string, E.
Qed.

Lemma fetch_data_symbol_determines_ticker_witness :
  fetch_data "BBCA" "2024-01-02" "2024-01-05"
    = History (mkQuery "BBCA.JK" "2024-01-02" "2024-01-06")
        (fun answer => Ret (except_Exception (try_body answer))) /\
  fetch_data "BBCA" "2024-01-02" "2024-1-5"
    = History (mkQuery "BBCA.JK" "2024-01-02" "2024-01-06")
        (fun answer => Ret (except_Exception (try_body answer))) /\
  "BBCA" = "BBCA" /\ "2024-01-02" = "2024-01-02".
Proof.
  split; [reflexivity|]. split; [reflexivity|].
  apply (fetch_data_symbol_determines_ticker
           "BBCA" "BBCA" "2024-01-02" "2024-01-02" "2024-01-05" "2024-1-5"
           (mkQuery "BBCA.JK" "2024-01-02" "2024-01-06")
           (fun answer => Ret (except_Exception (try_body answer)))
           (fun answer => Ret (except_Exception (try_body answer))));
    reflexivity.
Defined.

(** X10: with at least three arguments and an end date the adjustment
    accepts, a provider answer without rows makes the program print the
    empty JSON list on one line and exit with status 0, whatever the ticker
    and the extra arguments. *)
Theorem main_empty_table
  (float_repr : float -> string) (provider : Query -> outcome DataFrame)
  (script ticker start end_ end' : string) (extra : list string) :
  adjust_end_date start end_ = Return end' ->
  provider (mkQuery (ticker +:+ ".JK") start end') = Return [] ->
  run provider (main float_repr (script :: ticker :: start :: end_ :: extra))
    = mkProcess (print "[]") 0.
Proof.
  intros A E. rewrite run_main_fetch, (run_fetch_data provider _ _ _ _ A), E.
  reflexivity.
Qed.

Lemma main_empty_table_witness :
  adjust_end_date "2024-01-01" "2024-01-01" = Return "2024-01-02" /\
  run (always (Return []))
      (main no_float_repr ["fetch_yfinance.py"; "XXXX"; "2024-01-01"; "2024-01-01"; "-v"])
    = mkProcess (print "[]") 0.
Proof.
  split; [reflexivity|].
  apply (main_empty_table no_float_repr (always (Return []))
           "fetch_yfinance.py" "XXXX" "2024-01-01" "2024-01-01" "2024-01-02" ["-v"]);
    reflexivity.
Defined.

(** X11: when bars are returned for a table whose timestamps are calendar
    dates from the year 1000 on, the date text of each bar parses back, with
    the format the script uses, to the date of its row's timestamp: no day
    is shifted or lost by the formatting. *)
Theorem fetch_data_dates_read_back
  (provider : Query -> outcome DataFrame)
  (ticker start_date end_date end' : string) (df : DataFrame) (results : list Bar) :
  adjust_end_date start_date end_date = Return end' ->
  provider (mkQuery (ticker +:+ ".JK") start_date end') = Return df ->
  empty df = false ->
  Forall date_cell_valid df ->
  run provider (fetch_data ticker start_date end_date) = Return (Bars results) ->
  Forall2 date_reads_back df results.
Proof.
  intros A E NE V R.
  apply (run_fetch_data_Bars provider _ _ _ _ _ _ A E NE) in R.
  clear E NE. induction R as [|row bar rows bars H F IH]; constructor.
  - apply row_to_bar_spec in H.
    pose proof H as H'.
    destruct H' as (d & _ & _ & _ & _ & _ & Ed & _).
    destruct (bar_of_row_date row bar d H Ed) as (_ & _ & B).
    apply Forall_inv in V. destruct (V d Ed) as (Vd & Y).
    exists d. split; [exact Ed|]. now apply B.
  - apply IH. eapply Forall_inv_tail, V.
Qed.

Lemma fetch_data_dates_read_back_witness :
  adjust_end_date "2024-01-02" "2024-01-05" = Return "2024-01-06" /\
  empty sample_table = false /\
  Forall date_cell_valid sample_table /\
  Forall2 date_reads_back sample_table sample_bars.
Proof.
  assert (V : Forall date_cell_valid sample_table).
  { repeat (apply List.Forall_cons;
              [intros d E; vm_compute in E; injection E as <-;
               split; [reflexivity | cbn; lia]|]).
    apply List.Forall_nil. }
  split; [reflexivity|]. split; [reflexivity|]. split; [exact V|].
  apply (fetch_data_dates_read_back (always (Return sample_table))
           "BBCA" "2024-01-02" "2024-01-05" "2024-01-06" sample_table sample_bars).
  - reflexivity.
  - reflexivity.
  - reflexivity.
  - exact V.
  - vm_compute. reflexivity.
Defined.

Lemma day_alts_pad2_app (d : Z) (r : string) :
  1 <= d <= 31 -> exists tl, day_alts (pad2 d +:+ r) = (d, r) :: tl.
Proof.
  intros H.
  assert (C : exists k, 0 <= k <= 30 /\ d = 1 + k) by (exists (d - 1); lia).
  destruct C as (k & Hk & ->).
  assert (C : k = 0 \/ k = 1 \/ k = 2 \/ k = 3 \/ k = 4 \/ k = 5 \/ k = 6 \/
              k = 7 \/ k = 8 \/ k = 9 \/ k = 10 \/ k = 11 \/ k = 12 \/ k = 13 \/
              k = 14 \/ k = 15 \/ k = 16 \/ k = 17 \/ k = 18 \/ k = 19 \/
              k = 20 \/ k = 21 \/ k = 22 \/ k = 23 \/ k = 24 \/ k = 25 \/
              k = 26 \/ k = 27 \/ k = 28 \/ k = 29 \/ k = 30) by lia.
  repeat destruct C as [C|C]; subst k; eexists; reflexivity.
Qed.

Lemma match_ymd_ymd_text_app (d : datetime) (suffix : string) :
  valid_date d = true ->
  match_ymd (ymd_text d +:+ suffix) = Some (year d, month d, day d, suffix).
Proof.
  intros V. apply valid_date_spec in V. destruct V as (Hy & Hm & Hd).
  pose proof (days_in_month_range (year d) (month d)) as R.
  destruct (month_alts_pad2 (month d) (String "-" (pad2 (day d) +:+ suffix)) Hm)
    as (tm & Em).
  destruct (day_alts_pad2_app (day d) suffix) as (td & Ed); [lia|].
  rewrite ymd_text_chars, !app_String, app_assoc_string, app_String.
  unfold match_ymd.
  rewrite !is_digit_chr by apply mod10_digit.
  rewrite !digit_val_chr by apply mod10_digit.
  cbn [andb after_dash Ascii.eqb Bool.eqb].
  rewrite Em. cbn [first_match snd fst after_dash Ascii.eqb Bool.eqb].
  rewrite Ed. cbn [fst snd].
  rewrite decimal4 by lia. reflexivity.
Qed.

(** X12: an end date followed by anything at all, a time of day or a
    trailing blank, is rejected: [strptime] reports the unconverted rest,
    the exception leaves [fetch_data], and the provider is not asked. *)
Theorem fetch_data_rejects_trailing_text
  (ticker start_date : string) (d : datetime) (suffix : string) :
  valid_date d = true -> suffix <> EmptyString ->
  fetch_data ticker start_date (ymd_text d +:+ suffix)
    = Ret (Raise (ValueError ("unconverted data remains: " +:+ suffix))).
Proof.
  intros V NE.
  assert (P : strptime (ymd_text d +:+ suffix)
              = Raise (ValueError ("unconverted data remains: " +:+ suffix))).
  { unfold strptime. rewrite (match_ymd_ymd_text_app d suffix V).
    destruct suffix; [congruence | reflexivity]. }
  unfold fetch_data. rewrite adjust_end_date_unified.
  unfold end_date_plus_one_day. rewrite P. reflexivity.
Qed.

Lemma fetch_data_rejects_trailing_text_witness :
  valid_date (mkDate 2024 1 5) = true /\
  fetch_data "BBCA" "2024-01-02" "2024-01-05T00:00:00"
    = Ret (Raise (ValueError "unconverted data remains: T00:00:00")).
Proof.
  split; [reflexivity|].
  apply (fetch_data_rejects_trailing_text "BBCA" "2024-01-02" (mkDate 2024 1 5)
           "T00:00:00"); [reflexivity | discriminate].
Defined.

(** X13: a table that is [df.empty] gives the empty list without any row
    being converted: this is so for a table without rows, and also for a
    table that has rows but no column, whose rows hold nothing but the
    former index. *)
Theorem fetch_data_empty_axis
  (provider : Query -> outcome DataFrame)
  (ticker start_date end_date end' : string) (df : DataFrame) :
  adjust_end_date start_date end_date = Return end' ->
  provider (mkQuery (ticker +:+ ".JK") start_date end') = Return df ->
  df = [] \/ (exists row rest, df = row :: rest /\ (size row <= 1)%nat) ->
  run provider (fetch_data ticker start_date end_date) = Return (Bars []).
Proof.
  intros A E H. rewrite (run_fetch_data provider _ _ _ _ A), E.
  rewrite try_body_empty; [reflexivity|].
  destruct H as [->|(row & rest & -> & S)]; [reflexivity|].
  cbn [empty]. now apply Nat.leb_le.
Qed.

Lemma fetch_data_empty_axis_witness :
  adjust_end_date "2024-01-02" "2024-01-05" = Return "2024-01-06" /\
  size ({[ "Date" := PyTimestamp (mkDate 2024 1 2) ]} : Row) = 1%nat /\
  run (always (Return index_only_table)) (fetch_data "BBCA" "2024-01-02" "2024-01-05")
    = Return (Bars []).
Proof.
  split; [reflexivity|]. split; [reflexivity|].
  apply (fetch_data_empty_axis (always (Return index_only_table))
           "BBCA" "2024-01-02" "2024-01-05" "2024-01-06" index_only_table);
    [reflexivity | reflexivity |].
  right. exists {[ "Date" := PyTimestamp (mkDate 2024 1 2) ]}, [].
  split; [reflexivity|]. vm_compute. lia.
Defined.
